(** * Aletheia WhatsApp bot: the message relay of [whatsapp-bot/main.go]

    A shallow embedding of the relay (text extraction, length gate, backend
    call, verdict card, quoted reply) and the properties its specification
    states about it.

    - Go strings are byte sequences: they are [string] here, one [ascii] per
      byte, so [String.length] is Go's [len] and a literal holds the UTF-8
      bytes of the source literal.
    - [float64] is the kernel's binary64 [float]; its operations are the IEEE
      ones, specified by [Prim2SF] over [spec_float].
    - The chat client, the HTTP client and the process environment are outside
      the program: they are a [World] the handlers consult, and every call the
      handlers make to them is recorded, in order, in a trace of [Action]s.
    - [main] is modelled the same way, over a [StartupWorld] and a trace of
      [StartupAction]s, with the three ways a run can end. *)

From Stdlib Require Import ZArith List String Ascii Bool Lia Floats DecimalString.
From stdpp Require Import base option list gmap strings.

Local Open Scope Z_scope.

(** String concatenation computes on a literal prefix. *)
#[local] Arguments String.append !_ _ / : simpl nomatch.

(** ** Strings *)

Module Str.

(** The newline byte, Go's ["\n"]. *)
Definition nl : string := String (ascii_of_nat 10) EmptyString.

(** [rep n s]: [s] written [n] times. *)
Fixpoint rep (n : nat) (s : string) : string :=
  match n with
  | O => EmptyString
  | S n' => s +:+ rep n' s
  end.

(** Go's [s != ""]. *)
Definition nonempty (s : string) : bool :=
  match s with
  | EmptyString => false
  | String _ _ => true
  end.

(** The number of Unicode code points of a UTF-8 string: the bytes that are
    not continuation bytes [10xxxxxx].  This is the count of characters a
    reader sees; the program itself never computes it. *)
Fixpoint rune_count (s : string) : nat :=
  match s with
  | EmptyString => O
  | String a rest =>
      let b := Z.of_nat (nat_of_ascii a) in
      if Z.land b 192 =? 128 then rune_count rest else S (rune_count rest)
  end.

End Str.

(** ** binary64 values as the program uses them *)

Module F64.

Local Open Scope float_scope.

(** The constant [0.7] of the source: the binary64 value nearest to 7/10. *)
Definition c0_7 : float := 0x1.6666666666666p-1.

(** Go's [x > y]. *)
Definition gt (x y : float) : bool := y <? x.

(** The integer part of a finite value, rounded toward zero; [None] for NaN
    and the infinities. *)
Definition trunc_sf (x : spec_float) : option Z :=
  match x with
  | S754_zero _ => Some 0%Z
  | S754_finite s m e =>
      let a := (if (0 <=? e)%Z then Z.pos m * 2 ^ e else Z.pos m / 2 ^ (- e))%Z in
      Some (if s then (- a)%Z else a)
  | _ => None
  end.

(** The greatest integer below or equal to a finite value; [None] for NaN
    and the infinities. *)
Definition floor_sf (x : spec_float) : option Z :=
  match x with
  | S754_zero _ => Some 0%Z
  | S754_finite s m e =>
      Some (if (0 <=? e)%Z
            then (if s then - (Z.pos m * 2 ^ e) else Z.pos m * 2 ^ e)%Z
            else ((if s then Z.neg m else Z.pos m) / 2 ^ (- e))%Z)
  | _ => None
  end.

Definition floor (x : float) : option Z := floor_sf (Prim2SF x).

(** Go's conversion [int(x)] of a [float64] on a 64-bit platform: the
    fraction is discarded (truncation toward zero).  When the value is NaN,
    infinite or outside the range of [int], the language leaves the result
    to the implementation: [overflow] is that result. *)
Definition to_int (overflow : float -> Z) (x : float) : Z :=
  match trunc_sf (Prim2SF x) with
  | Some z =>
      if ((- 2 ^ 63 <=? z) && (z <? 2 ^ 63))%Z then z else overflow x
  | None => overflow x
  end.

(** A non-negative integer in decimal. *)
Definition decimal (n : Z) : string :=
  NilZero.string_of_uint (N.to_uint (Z.to_N n)).

(** Go's [%d] of an [int]. *)
Definition itoa (n : Z) : string :=
  (if (n <? 0)%Z then "-" +:+ decimal (- n) else decimal n).

(** [m * 2^e] rounded to the nearest integer, ties to even. *)
Definition round_half_even (m : positive) (e : Z) : Z :=
  (if 0 <=? e then Z.pos m * 2 ^ e
   else
     let d := 2 ^ (- e) in
     let q := Z.pos m / d in
     let r := Z.pos m mod d in
     match 2 * r ?= d with
     | Lt => q
     | Gt => q + 1
     | Eq => if Z.even q then q else q + 1
     end)%Z.

(** Go's [fmt.Sprintf("%.0f", x)]: the exact value rounded to an integer,
    ties to even, with the sign kept; [NaN], [+Inf] and [-Inf] in words. *)
Definition fmt_f0 (x : float) : string :=
  match Prim2SF x with
  | S754_nan => "NaN"
  | S754_infinity false => "+Inf"
  | S754_infinity true => "-Inf"
  | S754_zero s => (if s then "-" else "") +:+ "0"
  | S754_finite s m e => (if s then "-" else "") +:+ decimal (round_half_even m e)
  end.

(** The exact value of [x] is greater than [p / q], for a positive [q];
    positive infinity is, NaN is not. *)
Definition exceeds (x : spec_float) (p q : Z) : Prop :=
  match x with
  | S754_zero _ => (p < 0)%Z
  | S754_infinity s => s = false
  | S754_nan => False
  | S754_finite s m e =>
      let n := if s then Z.neg m else Z.pos m in
      if (0 <=? e)%Z then (p < q * (n * 2 ^ e))%Z else (p * 2 ^ (- e) < q * n)%Z
  end.

End F64.

(** ** Data model *)

(** [AnalyzeRequest]: the request body for the backend API. *)
Record AnalyzeRequest := mkAnalyzeRequest { Text : string }.

(** [AnalyzeResponse]: the response from the backend API. *)
Record AnalyzeResponse := mkAnalyzeResponse {
  IsMisinformation : bool;
  Confidence : float;
  IsNews : bool;
  Summary : string;
  Evidence : list string;
  SourcesChecked : list string;
  Recommendation : string;
  MessageType : string
}.

(** [Config]: the bot configuration. *)
Record Config := mkConfig { BackendURL : string }.

(** ** Configuration from the environment *)

(** The process environment, and Go's [os.Getenv]: the value of the variable,
    empty when the variable is not present. *)
Definition Getenv (env : gmap string string) (key : string) : string :=
  default "" (env !! key).

Definition getEnv (env : gmap string string) (key defaultValue : string) : string :=
  let value := Getenv env key in
  if Str.nonempty value then value else defaultValue.

(** The package's [init]. *)
Definition init (env : gmap string string) : Config :=
  {| BackendURL := getEnv env "BACKEND_URL" "http://localhost:8000" |}.

(** ** Results and HTTP messages *)

(** A Go [error], by its message. *)
Definition error : Type := string.

(** A Go result pair [(T, error)]. *)
Inductive result (A : Type) : Type :=
| Ok (a : A)
| Err (err : error).
Arguments Ok {A} a.
Arguments Err {A} err.

(** The body of an HTTP request: the JSON encoding of an [AnalyzeRequest],
    or a multipart form with one file part. *)
Inductive RequestBody :=
| JSONBody (reqBody : AnalyzeRequest)
| MultipartFile (fieldname filename : string) (data : list Byte.byte).

Record HttpRequest := mkHttpRequest {
  Method : string;
  URL : string;
  ContentType : string;
  Body : RequestBody
}.

(** An HTTP response: its status code, and what [json.Decoder] makes of its
    body when asked for an [AnalyzeResponse]. *)
Record HttpResponse := mkHttpResponse {
  StatusCode : Z;
  Decode : result AnalyzeResponse
}.

(** ** The relay *)

Section Bot.

(** What [int(x)] yields where Go leaves it to the implementation. *)
Variable int_overflow : float -> Z.

(** *** formatResponse *)

Definition status_emoji (result : AnalyzeResponse) : string * string :=
  if IsMisinformation result then
    if F64.gt (Confidence result) F64.c0_7
    then ("🚨", "LIKELY MISINFORMATION")
    else ("⚠️", "POTENTIALLY MISLEADING")
  else ("✅", "APPEARS CREDIBLE").

(** The loop [for i := 0; i < 10; i++]: [n] iterations remain, [i] is the
    loop variable and [bar] the string built so far. *)
Fixpoint bar_loop (n : nat) (i filled : Z) (bar : string) : string :=
  match n with
  | O => bar
  | S n' =>
      bar_loop n' (i + 1) filled
        (bar +:+ (if i <? filled then "█" else "░"))
  end.

Definition filled_of (result : AnalyzeResponse) : Z :=
  F64.to_int int_overflow (Confidence result * 10)%float.

Definition confidence_bar (result : AnalyzeResponse) : string :=
  bar_loop 10 0 (filled_of result) "".

(** The loop [for i, e := range items] with its [if i >= 3 { break }]. *)
Fixpoint bullet_loop (i : nat) (items : list string) (response : string) : string :=
  match items with
  | [] => response
  | e :: rest =>
      if (3 <=? i)%nat then response
      else bullet_loop (S i) rest (response +:+ "• " +:+ e +:+ Str.nl)
  end.

Definition header (result : AnalyzeResponse) : string :=
  let '(emoji, status) := status_emoji result in
  emoji +:+ " *" +:+ status +:+ "*" +:+ Str.nl +:+ Str.nl
    +:+ "*Confidence:* [" +:+ confidence_bar result +:+ "] "
    +:+ F64.fmt_f0 (Confidence result * 100)%float +:+ "%" +:+ Str.nl.

Definition add_summary (result : AnalyzeResponse) (response : string) : string :=
  if Str.nonempty (Summary result)
  then response +:+ (Str.nl +:+ "*Summary:*" +:+ Str.nl +:+ Summary result +:+ Str.nl)
  else response.

Definition add_evidence (result : AnalyzeResponse) (response : string) : string :=
  if (0 <? length (Evidence result))%nat
  then bullet_loop 0 (Evidence result) (response +:+ (Str.nl +:+ "*Evidence:*" +:+ Str.nl))
  else response.

Definition add_sources (result : AnalyzeResponse) (response : string) : string :=
  if (0 <? length (SourcesChecked result))%nat
  then bullet_loop 0 (SourcesChecked result) (response +:+ (Str.nl +:+ "*Sources:*" +:+ Str.nl))
  else response.

Definition add_recommendation (result : AnalyzeResponse) (response : string) : string :=
  if Str.nonempty (Recommendation result)
  then response +:+ (Str.nl +:+ "*Recommendation:*" +:+ Str.nl +:+ Recommendation result +:+ Str.nl)
  else response.

Definition footer : string :=
  Str.nl +:+ "_Always verify important news from multiple credible sources._".

(** [formatResponse] formats the analysis result for WhatsApp. *)
Definition formatResponse (result : AnalyzeResponse) : string :=
  let response := header result in
  let response := add_summary result response in
  let response := add_evidence result response in
  let response := add_sources result response in
  let response := add_recommendation result response in
  response +:+ footer.


(** *** The chat client's types

    [types.JID] and [waE2E.ImageMessage] belong to the client library; the
    relay only passes them on and prints a JID with its [String] method. *)
Variable JID : Type.
Variable JID_String : JID -> string.
Variable ImageMessage : Type.

(** [waE2E.Message] and the two messages it nests here.  Every field is
    optional on the wire; the getters below are the generated nil-safe ones. *)
Inductive Message : Type := mkMessage {
  Conversation : option string;
  ImageMessage_ : option ImageMessage;
  ExtendedTextMessage_ : option ExtendedTextMessage
}
with ExtendedTextMessage : Type := mkExtendedTextMessage {
  ExtText : option string;
  ContextInfo_ : option ContextInfo
}
with ContextInfo : Type := mkContextInfo {
  StanzaID : option string;
  Participant : option string;
  QuotedMessage : option Message
}.

Definition GetImageMessage (msg : option Message) : option ImageMessage :=
  msg ≫= ImageMessage_.

Definition GetConversation (msg : option Message) : string :=
  default "" (msg ≫= Conversation).

Definition GetExtendedTextMessage (msg : option Message) : option ExtendedTextMessage :=
  msg ≫= ExtendedTextMessage_.

Definition GetText (ext : option ExtendedTextMessage) : string :=
  default "" (ext ≫= ExtText).

(** [types.MessageInfo], the fields the relay reads. *)
Record MessageInfo := mkMessageInfo {
  ID : string;
  Sender : JID;
  Chat : JID;
  IsFromMe : bool
}.

(** [events.Message]. *)
Record MessageEvent := mkMessageEvent {
  Info : MessageInfo;
  Msg : option Message
}.

(** The events the handler is registered for. *)
Inductive Event :=
| EvMessage (v : MessageEvent)
| EvConnected
| EvDisconnected
| EvLoggedOut
| EvOther.

(** *** The outside world *)

Record World := mkWorld {
  (** why [http.NewRequest] refuses a URL, if it does *)
  url_error : string -> option error;
  (** what the HTTP client returns for a request handed to it *)
  round_trip : HttpRequest -> result HttpResponse;
  (** the boundary [multipart.NewWriter] draws *)
  boundary : string;
  (** the chat client's [Download] *)
  download : ImageMessage -> result (list Byte.byte);
  (** the chat client's [SendMessage]: the error it returns, if any *)
  send_message : JID -> Message -> option error
}.

(** What the relay does to the world, in order. *)
Inductive Action :=
| Print (line : string)
| HttpDo (req : HttpRequest)
| Download (img : ImageMessage)
| SendMessage (to : JID) (msg : Message).

(** Computations of the relay: they read the world and log their actions. *)
Definition Bot (A : Type) : Type := World -> A * list Action.

#[local] Instance Bot_ret : MRet Bot := fun A a _ => (a, []).
#[local] Instance Bot_bind : MBind Bot := fun A B f m w =>
  let '(a, t1) := m w in
  let '(b, t2) := f a w in
  (b, t1 ++ t2).

Definition act (a : Action) : Bot () := fun _ => (tt, [a]).

Definition Printf (line : string) : Bot () := act (Print line).

(** [http.NewRequest]: it only builds the request, and fails on a URL the
    library cannot parse. *)
Definition http_NewRequest (method url : string) (body : RequestBody)
  : Bot (result HttpRequest) := fun w =>
  match url_error w url with
  | Some err => (Err err, [])
  | None => (Ok (mkHttpRequest method url "" body), [])
  end.

(** [req.Header.Set("Content-Type", v)]. *)
Definition set_content_type (req : HttpRequest) (v : string) : HttpRequest :=
  mkHttpRequest (Method req) (URL req) v (Body req).

(** [http.Client.Do]: the request is handed to the HTTP client. *)
Definition http_Do (req : HttpRequest) : Bot (result HttpResponse) := fun w =>
  (round_trip w req, [HttpDo req]).

(** [http.Post]: one call that hands a POST request to the HTTP client.  The
    trace records the call; every failure is the call's error.  For a URL the
    library cannot parse nothing goes out, and the call returns that error:
    an outcome [round_trip] stands for on this path, as [url_error] is only
    asked where the program itself calls [http.NewRequest]. *)
Definition http_Post (url contentType : string) (body : RequestBody)
  : Bot (result HttpResponse) :=
  http_Do (mkHttpRequest "POST" url contentType body).

Definition FormDataContentType : Bot string := fun w =>
  ("multipart/form-data; boundary=" +:+ boundary w, []).

Definition client_Download (img : ImageMessage) : Bot (result (list Byte.byte)) :=
  fun w => (download w img, [Download img]).

Definition client_SendMessage (to : JID) (msg : Message) : Bot (option error) :=
  fun w => (send_message w to msg, [SendMessage to msg]).

(** *** The handlers *)

(** The process-wide configuration, set by [init] before any handler runs. *)
Variable config : Config.

(** [analyzeText] calls the backend API to analyze text for misinformation.
    [json.Marshal] cannot fail on a struct with one string field. *)
Definition analyzeText (text : string) : Bot (result AnalyzeResponse) :=
  let reqBody := {| Text := text |} in
  resp ← http_Post (BackendURL config +:+ "/analyze/text") "application/json"
           (JSONBody reqBody);
  match resp with
  | Err err => mret (Err ("failed to call backend: " +:+ err))
  | Ok resp =>
      if negb (StatusCode resp =? 200)
      then mret (Err ("backend returned status " +:+ F64.itoa (StatusCode resp)))
      else
        match Decode resp with
        | Err err => mret (Err ("failed to decode response: " +:+ err))
        | Ok result => mret (Ok result)
        end
  end.

(** [analyzeImage] calls the backend API to analyze an image for
    misinformation.  Writing the form to an in-memory buffer cannot fail. *)
Definition analyzeImage (imageData : list Byte.byte) : Bot (result AnalyzeResponse) :=
  req ← http_NewRequest "POST" (BackendURL config +:+ "/analyze/image")
          (MultipartFile "file" "image.jpg" imageData);
  match req with
  | Err err => mret (Err ("failed to create request: " +:+ err))
  | Ok req =>
      ct ← FormDataContentType;
      resp ← http_Do (set_content_type req ct);
      match resp with
      | Err err => mret (Err ("failed to call backend: " +:+ err))
      | Ok resp =>
          if negb (StatusCode resp =? 200)
          then mret (Err ("backend returned status " +:+ F64.itoa (StatusCode resp)))
          else
            match Decode resp with
            | Err err => mret (Err ("failed to decode response: " +:+ err))
            | Ok result => mret (Ok result)
            end
      end
  end.

(** [sendMessage] sends a reply to the specific message. *)
Definition sendMessage (evt : MessageEvent) (text : string) : Bot () :=
  let contextInfo := {|
    StanzaID := Some (ID (Info evt));
    Participant := Some (JID_String (Sender (Info evt)));
    QuotedMessage := Msg evt
  |} in
  let msg := {|
    Conversation := None;
    ImageMessage_ := None;
    ExtendedTextMessage_ := Some {|
      ExtText := Some text;
      ContextInfo_ := Some contextInfo
    |}
  |} in
  err ← client_SendMessage (Chat (Info evt)) msg;
  match err with
  | Some err => Printf ("Error sending message: " +:+ err +:+ Str.nl)
  | None => mret tt
  end.

Definition err_connect : string :=
  "❌ *Error*" +:+ Str.nl +:+ Str.nl
    +:+ "Could not connect to the analysis backend. Please try again later.".

Definition err_download : string :=
  "❌ *Error*" +:+ Str.nl +:+ Str.nl
    +:+ "Could not download the image. Please try again.".

Definition err_analyze_image : string :=
  "❌ *Error*" +:+ Str.nl +:+ Str.nl
    +:+ "Could not analyze the image. Please try again later.".

(** [handleImageMessage] processes incoming image messages. *)
Definition handleImageMessage (evt : MessageEvent) : Bot () :=
  Printf ("Received image from " +:+ JID_String (Sender (Info evt)) +:+ Str.nl);;
  match GetImageMessage (Msg evt) with
  | None => mret tt
  | Some imgMsg =>
      data ← client_Download imgMsg;
      match data with
      | Err err =>
          Printf ("Error downloading image: " +:+ err +:+ Str.nl);;
          sendMessage evt err_download
      | Ok data =>
          result ← analyzeImage data;
          match result with
          | Err err =>
              Printf ("Error analyzing image: " +:+ err +:+ Str.nl);;
              sendMessage evt err_analyze_image
          | Ok result =>
              let response := formatResponse result in
              sendMessage evt response
          end
      end
  end.

(** The text of a message that is not an image. *)
Definition message_text (msg : option Message) : string :=
  if Str.nonempty (GetConversation msg) then GetConversation msg
  else
    match GetExtendedTextMessage msg with
    | Some ext => GetText (Some ext)
    | None => ""
    end.

(** [handleMessage] processes incoming messages. *)
Definition handleMessage (evt : MessageEvent) : Bot () :=
  let msg := Msg evt in
  match GetImageMessage msg with
  | Some _ => handleImageMessage evt
  | None =>
      let text := message_text msg in
      if (String.length text <? 10)%nat then mret tt
      else
        Printf ("Received message from " +:+ JID_String (Sender (Info evt))
                  +:+ ": " +:+ text +:+ Str.nl);;
        result ← analyzeText text;
        match result with
        | Err err =>
            Printf ("Error analyzing message: " +:+ err +:+ Str.nl);;
            sendMessage evt err_connect
        | Ok result =>
            if negb (IsNews result)
            then Printf ("Not news, ignoring: " +:+ text +:+ Str.nl)
            else
              let response := formatResponse result in
              sendMessage evt response
        end
  end.

(** [eventHandler] handles all WhatsApp events. *)
Definition eventHandler (evt : Event) : Bot () :=
  match evt with
  | EvMessage v =>
      if negb (IsFromMe (Info v)) then handleMessage v else mret tt
  | EvConnected => Printf ("✅ Connected to WhatsApp!" +:+ Str.nl)
  | EvDisconnected => Printf ("❌ Disconnected from WhatsApp" +:+ Str.nl)
  | EvLoggedOut => Printf ("🚪 Logged out from WhatsApp" +:+ Str.nl)
  | EvOther => mret tt
  end.

(** The trace of one handled event. *)
Definition run (w : World) (evt : Event) : list Action :=
  snd (eventHandler evt w).

End Bot.

Arguments mkMessage {ImageMessage} _ _ _.
Arguments mkExtendedTextMessage {ImageMessage} _ _.
Arguments mkContextInfo {ImageMessage} _ _ _.
Arguments Conversation {ImageMessage} _.
Arguments ImageMessage_ {ImageMessage} _.
Arguments ExtendedTextMessage_ {ImageMessage} _.
Arguments ExtText {ImageMessage} _.
Arguments ContextInfo_ {ImageMessage} _.
Arguments StanzaID {ImageMessage} _.
Arguments Participant {ImageMessage} _.
Arguments QuotedMessage {ImageMessage} _.
Arguments GetImageMessage {ImageMessage} msg.
Arguments GetConversation {ImageMessage} msg.
Arguments GetExtendedTextMessage {ImageMessage} msg.
Arguments GetText {ImageMessage} ext.
Arguments message_text {ImageMessage} msg.
Arguments url_error {JID ImageMessage} _ _.
Arguments round_trip {JID ImageMessage} _ _.
Arguments boundary {JID ImageMessage} _.
Arguments download {JID ImageMessage} _ _.
Arguments send_message {JID ImageMessage} _ _ _.
Arguments mkMessageInfo {JID} _ _ _ _.
Arguments ID {JID} _.
Arguments Sender {JID} _.
Arguments Chat {JID} _.
Arguments IsFromMe {JID} _.
Arguments mkMessageEvent {JID ImageMessage} _ _.
Arguments Info {JID ImageMessage} _.
Arguments Msg {JID ImageMessage} _.
Arguments EvMessage {JID ImageMessage} v.
Arguments EvConnected {JID ImageMessage}.
Arguments EvDisconnected {JID ImageMessage}.
Arguments EvLoggedOut {JID ImageMessage}.
Arguments EvOther {JID ImageMessage}.
Arguments mkWorld {JID ImageMessage} _ _ _ _ _.
Arguments Print {JID ImageMessage} line.
Arguments HttpDo {JID ImageMessage} req.
Arguments Download {JID ImageMessage} img.
Arguments SendMessage {JID ImageMessage} to msg.
Arguments run int_overflow {JID} JID_String {ImageMessage} config w evt.
Arguments eventHandler int_overflow {JID} JID_String {ImageMessage} config evt _.

(** ** Reading a trace *)

Section Traces.

Context {JID ImageMessage : Type}.

(** The requests handed to the HTTP client. *)
Definition requests (t : list (Action JID ImageMessage)) : list HttpRequest :=
  omap (fun a => match a with HttpDo req => Some req | _ => None end) t.

(** The messages handed to the chat client for sending, with their chats. *)
Definition replies (t : list (Action JID ImageMessage)) : list (JID * Message ImageMessage) :=
  omap (fun a => match a with SendMessage to msg => Some (to, msg) | _ => None end) t.

(** The media the chat client was asked to download. *)
Definition downloads (t : list (Action JID ImageMessage)) : list ImageMessage :=
  omap (fun a => match a with Download img => Some img | _ => None end) t.

(** The lines written to standard output. *)
Definition printed (t : list (Action JID ImageMessage)) : list string :=
  omap (fun a => match a with Print line => Some line | _ => None end) t.

(** The text of an outgoing message. *)
Definition reply_text (msg : Message ImageMessage) : string :=
  GetText (GetExtendedTextMessage (Some msg)).

Definition reply_texts (t : list (Action JID ImageMessage)) : list string :=
  (fun r => reply_text (snd r)) <$> replies t.

(** The message [sendMessage] builds for a text. *)
Definition quoted_reply (JID_String : JID -> string)
    (evt : MessageEvent JID ImageMessage) (text : string)
  : Message ImageMessage :=
  {| Conversation := None;
     ImageMessage_ := None;
     ExtendedTextMessage_ := Some {|
       ExtText := Some text;
       ContextInfo_ := Some {|
         StanzaID := Some (ID (Info evt));
         Participant := Some (JID_String (Sender (Info evt)));
         QuotedMessage := Msg evt |} |} |}.

(** The world [w], with another answer of the chat client to sends. *)
Definition with_send (w : World JID ImageMessage)
    (answer : JID -> Message ImageMessage -> option error) : World JID ImageMessage :=
  {| url_error := url_error w;
     round_trip := round_trip w;
     boundary := boundary w;
     download := download w;
     send_message := answer |}.

End Traces.

(** ** What the backend answered *)

(** The backend answered 200 with a body that decodes to [r]. *)
Definition backend_ok (res : result HttpResponse) (r : AnalyzeResponse) : Prop :=
  exists resp, res = Ok resp /\ StatusCode resp = 200 /\ Decode resp = Ok r.

(** The call failed: no response at all (a network error), a status other
    than 200, or a body that does not decode. *)
Definition backend_failed (res : result HttpResponse) : Prop :=
  (exists err, res = Err err) \/
  (exists resp, res = Ok resp /\
     (StatusCode resp <> 200 \/ exists err, Decode resp = Err err)).

(** The request [analyzeText] makes for a text. *)
Definition text_request (config : Config) (text : string) : HttpRequest :=
  {| Method := "POST";
     URL := BackendURL config +:+ "/analyze/text";
     ContentType := "application/json";
     Body := JSONBody {| Text := text |} |}.

(** The request [analyzeImage] makes for image bytes, given the boundary the
    multipart writer drew. *)
Definition image_request (config : Config) (boundary : string) (data : list Byte.byte)
  : HttpRequest :=
  {| Method := "POST";
     URL := BackendURL config +:+ "/analyze/image";
     ContentType := "multipart/form-data; boundary=" +:+ boundary;
     Body := MultipartFile "file" "image.jpg" data |}.

(** ** The card, as the specification describes it *)

(** One bullet line per item. *)
Fixpoint bullets (items : list string) : string :=
  match items with
  | [] => ""
  | e :: rest => "• " +:+ e +:+ Str.nl +:+ bullets rest
  end.

(** A titled list of bullets, absent when there is nothing to list. *)
Definition bullet_section (title : string) (shown : list string) : string :=
  match shown with
  | [] => ""
  | _ => Str.nl +:+ title +:+ Str.nl +:+ bullets shown
  end.

(** A titled paragraph, absent when the text is empty. *)
Definition text_section (title text : string) : string :=
  if Str.nonempty text then Str.nl +:+ title +:+ Str.nl +:+ text +:+ Str.nl else "".

(** ** The bar, counted *)

(** The number of filled blocks among [n] blocks drawn from index [i] on. *)
Definition filled_blocks (n : nat) (i filled : Z) : nat :=
  Z.to_nat (Z.min (Z.max (filled - i) 0) (Z.of_nat n)).

(** ** Startup: [main]

    [main] runs once, in sequence.  What it asks of the session store, the
    chat client and the operating system is a trace of [StartupAction]s; what
    they answer is a [StartupWorld]. *)

(** An item of the client's QR channel: [Event] and [Code]. *)
Record QRChannelItem := mkQRChannelItem {
  QREvent : string;
  QRCode : string
}.

(** A device of the session store, by its [ID]: a device that has not been
    paired has none. *)
Record Device (JID : Type) := mkDevice { DeviceID : option JID }.
Arguments mkDevice {JID} _.
Arguments DeviceID {JID} _.

Record StartupWorld (JID : Type) := mkStartupWorld {
  (** the error of [sqlstore.New], if any *)
  store_error : option error;
  (** [container.GetFirstDevice] *)
  first_device : result (Device JID);
  (** the channel [client.GetQRChannel] returns, by the items it delivers
      before it is closed; its error is dropped and the channel is nil then *)
  qr_channel : option (list QRChannelItem);
  (** the error of [client.Connect], if any *)
  connect_error : option error;
  (** whether an interrupt or termination signal ever arrives *)
  signal_arrives : bool
}.
Arguments mkStartupWorld {JID} _ _ _ _ _.
Arguments store_error {JID} _.
Arguments first_device {JID} _.
Arguments qr_channel {JID} _.
Arguments connect_error {JID} _.
Arguments signal_arrives {JID} _.

Inductive StartupAction :=
| Println (line : string)
| OpenStore (dialect address : string)
| GetFirstDevice
| NewClient
| AddEventHandler
| GetQRChannel
| Connect
| GenerateQR (code : string)
| NotifySignals
| Disconnect.

(** How a run of [main] ends: it returns, it leaves through [os.Exit], or it
    waits forever on a channel. *)
Inductive Outcome :=
| Returned
| Exited (code : Z)
| Waiting.

Section Startup.

Context {JID : Type}.

(** A step of [main]: its trace, and its value unless the process ended or
    hangs there. *)
Definition Proc (A : Type) : Type := StartupWorld JID -> list StartupAction * (A + Outcome).

#[local] Instance Proc_ret : MRet Proc := fun A a _ => ([], inl a).
#[local] Instance Proc_bind : MBind Proc := fun A B f m w =>
  match m w with
  | (t1, inl a) => let '(t2, b) := f a w in (t1 ++ t2, b)
  | (t1, inr o) => (t1, inr o)
  end.

Definition step (a : StartupAction) : Proc () := fun _ => ([a], inl tt).

(** [os.Exit]. *)
Definition os_Exit {A : Type} (code : Z) : Proc A := fun _ => ([], inr (Exited code)).

(** Waiting on a channel that never delivers. *)
Definition wait_forever {A : Type} : Proc A := fun _ => ([], inr Waiting).

Definition sqlstore_New (dialect address : string) : Proc (option error) := fun w =>
  ([OpenStore dialect address], inl (store_error w)).

Definition container_GetFirstDevice : Proc (result (Device JID)) := fun w =>
  ([GetFirstDevice], inl (first_device w)).

Definition client_GetQRChannel : Proc (option (list QRChannelItem)) := fun w =>
  ([GetQRChannel], inl (qr_channel w)).

Definition client_Connect : Proc (option error) := fun w =>
  ([Connect], inl (connect_error w)).

(** [signal.Notify(c, os.Interrupt, syscall.SIGTERM)] and [<-c]. *)
Definition await_signal : Proc () := fun w =>
  ([NotifySignals], if signal_arrives w then inl tt else inr Waiting).

(** The body of [for evt := range qrChan], over the items delivered. *)
Fixpoint qr_loop (items : list QRChannelItem) : Proc () :=
  match items with
  | [] => mret tt
  | evt :: rest =>
      (if String.eqb (QREvent evt) "code"
       then step (GenerateQR (QRCode evt))
       else step (Println ("Login event: " +:+ QREvent evt +:+ Str.nl)));;
      qr_loop rest
  end.

(** [client.Connect] with the exit [main] takes when it fails. *)
Definition connect_or_exit : Proc () :=
  err ← client_Connect;
  match err with
  | Some err =>
      step (Println ("Failed to connect: " +:+ err +:+ Str.nl));;
      os_Exit 1
  | None => mret tt
  end.

Definition main_proc : Proc () :=
  step (Println ("🤖 Aletheia WhatsApp Bot - Fake News Detection" +:+ Str.nl));;
  step (Println ("================================================" +:+ Str.nl));;
  err ← sqlstore_New "sqlite3" "file:whatsapp_session.db?_foreign_keys=on";
  match err with
  | Some err =>
      step (Println ("Failed to create database: " +:+ err +:+ Str.nl));;
      os_Exit 1
  | None =>
      deviceStore ← container_GetFirstDevice;
      match deviceStore with
      | Err err =>
          step (Println ("Failed to get device: " +:+ err +:+ Str.nl));;
          os_Exit 1
      | Ok deviceStore =>
          step NewClient;;
          step AddEventHandler;;
          match DeviceID deviceStore with
          | None =>
              qrChan ← client_GetQRChannel;
              connect_or_exit;;
              step (Println (Str.nl +:+ "📱 Scan this QR code with WhatsApp to login:" +:+ Str.nl));;
              step (Println ("   (WhatsApp > Settings > Linked Devices > Link a Device)" +:+ Str.nl));;
              step (Println Str.nl);;
              match qrChan with
              | Some items => qr_loop items
              | None => wait_forever
              end
          | Some _ => connect_or_exit
          end;;
          step (Println (Str.nl +:+ "✅ Bot is running! Send any message to analyze it for misinformation." +:+ Str.nl));;
          step (Println ("   Press Ctrl+C to stop." +:+ Str.nl +:+ Str.nl));;
          await_signal;;
          step (Println (Str.nl +:+ "👋 Shutting down..." +:+ Str.nl));;
          step Disconnect
      end
  end.

(** [main]: what it does, and how it ends. *)
Definition main (w : StartupWorld JID) : list StartupAction * Outcome :=
  match main_proc w with
  | (t, inl _) => (t, Returned)
  | (t, inr o) => (t, o)
  end.

(** The QR codes drawn on the terminal. *)
Definition qr_codes (t : list StartupAction) : list string :=
  omap (fun a => match a with GenerateQR code => Some code | _ => None end) t.

End Startup.

(** What [main] does with one item of the QR channel. *)
Definition qr_action (evt : QRChannelItem) : StartupAction :=
  if String.eqb (QREvent evt) "code"
  then GenerateQR (QRCode evt)
  else Println ("Login event: " +:+ QREvent evt +:+ Str.nl).

(** What every run of [main] starts with. *)
Definition banner : list StartupAction :=
  [Println ("🤖 Aletheia WhatsApp Bot - Fake News Detection" +:+ Str.nl);
   Println ("================================================" +:+ Str.nl);
   OpenStore "sqlite3" "file:whatsapp_session.db?_foreign_keys=on"].

(** ** Concrete runs *)

Module Demo.

(** The conversion of a value outside the range of [int], as amd64 does it. *)
Definition overflow : float -> Z := fun _ => - 2 ^ 63.

Definition jid_string (jid : string) : string := jid.

Definition verdict (news : bool) : AnalyzeResponse :=
  {| IsMisinformation := true;
     Confidence := 0.875%float;
     IsNews := news;
     Summary := "Unverified claim";
     Evidence := ["one"; "two"; "three"; "four"];
     SourcesChecked := ["wire"];
     Recommendation := "";
     MessageType := "text" |}.

(** A world in which the backend gives [answer] and everything else works;
    an image message is its own bytes. *)
Definition world (answer : result HttpResponse) : World string (list Byte.byte) :=
  {| url_error := fun _ => None;
     round_trip := fun _ => answer;
     boundary := "b0";
     download := fun img => Ok img;
     send_message := fun _ _ => None |}.

Definition answer_ok (news : bool) : result HttpResponse :=
  Ok {| StatusCode := 200; Decode := Ok (verdict news) |}.

Definition answer_500 : result HttpResponse :=
  Ok {| StatusCode := 500; Decode := Err "unexpected end of JSON input" |}.

Definition info (fromMe : bool) : MessageInfo string :=
  {| ID := "3EB0C7"; Sender := "alice@s.whatsapp.net"; Chat := "family@g.us";
     IsFromMe := fromMe |}.

Definition text_message (fromMe : bool) (text : string)
  : MessageEvent string (list Byte.byte) :=
  {| Info := info fromMe;
     Msg := Some {| Conversation := Some text; ImageMessage_ := None;
                    ExtendedTextMessage_ := None |} |}.

Definition image_message (caption : string) (img : list Byte.byte)
  : MessageEvent string (list Byte.byte) :=
  {| Info := info false;
     Msg := Some {| Conversation := Some caption; ImageMessage_ := Some img;
                    ExtendedTextMessage_ := None |} |}.

Definition config : Config := init ∅.

(** Three sirens: 3 characters, 12 bytes. *)
Definition sirens : string := "🚨🚨🚨".

(** A verdict with nothing to show but the verdict itself. *)
Definition bare_verdict : AnalyzeResponse :=
  {| IsMisinformation := false;
     Confidence := 0.5%float;
     IsNews := true;
     Summary := "";
     Evidence := [];
     SourcesChecked := [];
     Recommendation := "";
     MessageType := "text" |}.

(** A link shared with a preview: no conversation text, the text is in the
    extended text message. *)
Definition link_message (text : string) : MessageEvent string (list Byte.byte) :=
  {| Info := info false;
     Msg := Some {| Conversation := None; ImageMessage_ := None;
                    ExtendedTextMessage_ :=
                      Some {| ExtText := Some text; ContextInfo_ := None |} |} |}.

Definition headline : string := "Breaking: the moon is made of cheese".

(** A first start: the device is not paired, the channel delivers two codes
    and the success of the pairing, and a signal ends the run. *)
Definition first_start : StartupWorld string :=
  {| store_error := None;
     first_device := Ok {| DeviceID := None |};
     qr_channel := Some [ {| QREvent := "code"; QRCode := "2@Ab1" |};
                          {| QREvent := "code"; QRCode := "2@Cd2" |};
                          {| QREvent := "success"; QRCode := "" |} ];
     connect_error := None;
     signal_arrives := true |}.

(** A start on a paired device. *)
Definition paired_start : StartupWorld string :=
  {| store_error := None;
     first_device := Ok {| DeviceID := Some "bot@s.whatsapp.net" |};
     qr_channel := None;
     connect_error := None;
     signal_arrives := true |}.

(** A start without a usable session database. *)
Definition broken_store : StartupWorld string :=
  {| store_error := Some "unable to open database file";
     first_device := Err "no such table";
     qr_channel := None;
     connect_error := None;
     signal_arrives := false |}.

End Demo.

(** * Properties *)

(** ** Strings *)

Module StrFacts.

Lemma append_assoc (a b c : string) : (a +:+ b) +:+ c = a +:+ (b +:+ c).
Proof. induction a as [|x a IH]; simpl; [reflexivity | now rewrite IH]. Qed.

Lemma append_nil_r (a : string) : a +:+ "" = a.
Proof. induction a as [|x a IH]; simpl; [reflexivity | now rewrite IH]. Qed.

Lemma rep_snoc (n : nat) (s : string) : Str.rep n s +:+ s = Str.rep (S n) s.
Proof.
  induction n as [|n IH]; simpl.
  - now rewrite append_nil_r.
  - rewrite append_assoc. simpl in IH. now rewrite IH.
Qed.

Lemma prefix_append (a b : string) : String.prefix a (a +:+ b) = true.
Proof.
  induction a as [|x a IH]; simpl.
  - now destruct b.
  - destruct (ascii_dec x x) as [_|ne]; [exact IH | now destruct ne].
Qed.


End StrFacts.

(** ** binary64 arithmetic *)

Module F64Facts.

Lemma digits2_size (p : positive) : digits2_pos p = Pos.size p.
Proof. induction p as [p IH|p IH|]; simpl; congruence. Qed.

Lemma Zdigits2_le (m k : Z) : 0 <= k -> 0 <= m < 2 ^ k -> Zdigits2 m <= k.
Proof.
  intros Hk [H0 Hm]. destruct m as [|p|p]; simpl; try lia.
  rewrite digits2_size.
  pose proof (Pos.size_le p) as Hle.
  assert (Hz : 2 ^ Z.pos (Pos.size p) <= 2 * Z.pos p).
  { change (2 * Z.pos p) with (Z.pos p~0). rewrite <- Pos2Z.inj_pow. exact Hle. }
  destruct (Z_le_gt_dec (Z.pos (Pos.size p)) k) as [|Hgt]; [assumption|exfalso].
  assert (2 ^ (k + 1) <= 2 ^ Z.pos (Pos.size p)) by (apply Z.pow_le_mono_r; lia).
  rewrite Z.pow_add_r in H by lia. lia.
Qed.

Lemma shr_1_m (mrs : shr_record) : 0 <= shr_m mrs -> shr_m (shr_1 mrs) = shr_m mrs / 2.
Proof.
  destruct mrs as [m r s]; simpl. intros Hm.
  destruct m as [|[p|p|]|p]; simpl; try lia; try reflexivity.
  - change (Z.pos p~1) with (2 * Z.pos p + 1). apply Z.div_unique with 1; lia.
  - change (Z.pos p~0) with (2 * Z.pos p). apply Z.div_unique with 0; lia.
Qed.

Lemma iter_shr_1_m (p : positive) : forall mrs,
  0 <= shr_m mrs -> shr_m (SpecFloat.iter_pos shr_1 p mrs) = shr_m mrs / 2 ^ Z.pos p.
Proof.
  assert (Hnn : forall a k, 0 <= a -> 0 <= a / 2 ^ k).
  { intros a k Ha. apply Z_div_nonneg_nonneg; [assumption|]. apply Z.pow_nonneg; lia. }
  induction p as [p IH|p IH|]; intros mrs Hm; cbn [SpecFloat.iter_pos].
  - assert (H1 : 0 <= shr_m (shr_1 mrs)).
    { rewrite shr_1_m by assumption. change 2 with (2 ^ 1). now apply Hnn. }
    assert (H2 : 0 <= shr_m (SpecFloat.iter_pos shr_1 p (shr_1 mrs))).
    { rewrite IH by assumption. now apply Hnn. }
    rewrite (IH _ H2), (IH _ H1), shr_1_m by assumption.
    rewrite !Z.div_div by (try apply Z.pow_pos_nonneg; lia).
    f_equal. replace (Z.pos p~1) with (1 + Z.pos p + Z.pos p) by lia.
    rewrite !Z.pow_add_r by lia. change (2 ^ 1) with 2. ring.
  - assert (H2 : 0 <= shr_m (SpecFloat.iter_pos shr_1 p mrs)).
    { rewrite IH by assumption. now apply Hnn. }
    rewrite (IH _ H2), (IH _ Hm).
    rewrite !Z.div_div by (try apply Z.pow_pos_nonneg; lia).
    f_equal. replace (Z.pos p~0) with (Z.pos p + Z.pos p) by lia.
    rewrite Z.pow_add_r by lia. reflexivity.
  - rewrite shr_1_m by assumption. reflexivity.
Qed.

Lemma shr_spec (mrs : shr_record) (e n : Z) :
  0 <= shr_m mrs ->
  snd (shr mrs e n) = e + Z.max n 0 /\
  shr_m (fst (shr mrs e n)) = shr_m mrs / 2 ^ Z.max n 0.
Proof.
  intros Hm. destruct n as [|p|p]; simpl.
  - split; [lia|]. now rewrite Z.div_1_r.
  - split; [reflexivity|]. now apply iter_shr_1_m.
  - split; [lia|]. now rewrite Z.div_1_r.
Qed.

Lemma round_nearest_even_bounds (m : Z) (l : location) :
  m <= round_nearest_even m l <= m + 1.
Proof. destruct l as [|[]]; simpl; try lia. destruct (Z.even m); lia. Qed.

Lemma shr_record_of_loc_m m l : shr_m (shr_record_of_loc m l) = m.
Proof. destruct l as [|[]]; reflexivity. Qed.

Lemma pow2_split (a k : Z) : 0 <= k -> 0 <= a -> 2 ^ (a + k) = 2 ^ a * 2 ^ k.
Proof. intros. now rewrite Z.pow_add_r. Qed.

Lemma binary_round_aux_le10 (M0 E0 : Z) :
  0 < M0 -> E0 <= -49 -> M0 <= 10 * 2 ^ (- E0) ->
  match binary_round_aux prec emax false M0 E0 loc_Exact with
  | S754_zero false => True
  | S754_finite false m e => e < 0 /\ Z.pos m < 11 * 2 ^ (- e)
  | _ => False
  end.
Proof.
  intros HM HE Hle.
  unfold binary_round_aux, shr_fexp.
  set (n1 := fexp prec emax (Zdigits2 M0 + E0) - E0).
  assert (Hd0 : Zdigits2 M0 <= 4 - E0).
  { apply Zdigits2_le; [lia|]. split; [lia|].
    replace (4 - E0) with (- E0 + 4) by lia.
    rewrite pow2_split by lia. change (2 ^ 4) with 16.
    assert (0 < 2 ^ (- E0)) by (apply Z.pow_pos_nonneg; lia). lia. }
  destruct (shr_spec (shr_record_of_loc M0 loc_Exact) E0 n1) as [He1 Hm1];
    [rewrite shr_record_of_loc_m; lia|].
  rewrite shr_record_of_loc_m in Hm1.
  destruct (shr (shr_record_of_loc M0 loc_Exact) E0 n1) as [mrs1 e1].
  cbn [fst snd] in He1, Hm1.
  set (K1 := Z.max n1 0) in *.
  assert (HK1 : 0 <= K1) by (unfold K1; lia).
  assert (He1' : e1 <= -49).
  { subst e1. unfold K1, n1, fexp, SpecFloat.emin, prec, emax. lia. }
  assert (Hp1 : 0 < 2 ^ (- e1)) by (apply Z.pow_pos_nonneg; lia).
  assert (Hp1' : 2 ^ 49 <= 2 ^ (- e1)) by (apply Z.pow_le_mono_r; lia).
  assert (HpK1 : 0 < 2 ^ K1) by (apply Z.pow_pos_nonneg; lia).
  assert (Hm1le : 0 <= shr_m mrs1 <= 10 * 2 ^ (- e1)).
  { rewrite Hm1. split.
    - apply Z_div_nonneg_nonneg; lia.
    - apply Z.div_le_upper_bound; [assumption|].
      replace (- E0) with (- e1 + K1) in Hle by lia.
      rewrite pow2_split in Hle by lia. lia. }
  pose proof (round_nearest_even_bounds (shr_m mrs1) (loc_of_shr_record mrs1)) as Hr.
  set (m2 := round_nearest_even (shr_m mrs1) (loc_of_shr_record mrs1)) in *.
  set (n2 := fexp prec emax (Zdigits2 m2 + e1) - e1).
  assert (Hd2 : Zdigits2 m2 <= 4 - e1).
  { apply Zdigits2_le; [lia|]. split; [lia|].
    replace (4 - e1) with (- e1 + 4) by lia.
    rewrite pow2_split by lia. change (2 ^ 4) with 16.
    change (2 ^ 49) with 562949953421312 in Hp1'. lia. }
  destruct (shr_spec (shr_record_of_loc m2 loc_Exact) e1 n2) as [He3 Hm3];
    [rewrite shr_record_of_loc_m; lia|].
  rewrite shr_record_of_loc_m in Hm3.
  destruct (shr (shr_record_of_loc m2 loc_Exact) e1 n2) as [mrs3 e3].
  cbn [fst snd] in He3, Hm3.
  set (K2 := Z.max n2 0) in *.
  assert (HK2 : 0 <= K2) by (unfold K2; lia).
  assert (He3' : e3 <= -49).
  { subst e3. unfold K2, n2, fexp, SpecFloat.emin, prec, emax. lia. }
  assert (HpK2 : 0 < 2 ^ K2) by (apply Z.pow_pos_nonneg; lia).
  assert (Hp3 : 0 < 2 ^ (- e3)) by (apply Z.pow_pos_nonneg; lia).
  assert (Hm3lt : 0 <= shr_m mrs3 < 11 * 2 ^ (- e3)).
  { rewrite Hm3. split.
    - apply Z_div_nonneg_nonneg; lia.
    - apply Z.div_lt_upper_bound; [assumption|].
      assert (Hs : 2 ^ (- e1) = 2 ^ (- e3) * 2 ^ K2).
      { rewrite <- pow2_split by lia. f_equal. lia. }
      change (2 ^ 49) with 562949953421312 in Hp1'. nia. }
  destruct (shr_m mrs3) as [|m3|m3]; [exact I| |lia].
  replace (e3 <=? emax - prec) with true
    by (symmetry; apply Z.leb_le; unfold emax, prec; lia).
  split; lia.
Qed.

Lemma digits2_gt (m : positive) : Z.pos m < 2 ^ Z.pos (digits2_pos m).
Proof.
  rewrite digits2_size. pose proof (Pos.size_gt m) as H.
  rewrite <- Pos2Z.inj_pow. exact H.
Qed.

Lemma pos_le_of_compare (m n : positive) :
  match Pos.compare_cont Eq m n with Gt => False | _ => True end -> Z.pos m <= Z.pos n.
Proof.
  rewrite Pos.compare_cont_spec. unfold Pos.switch_Eq.
  destruct (Pos.compare_spec m n) as [H|H|H]; intros Hc; [subst; lia | lia | easy].
Qed.

Lemma unit_interval_sf (x : spec_float) :
  valid_binary x = true ->
  SFleb (S754_zero false) x = true ->
  SFleb x (S754_finite false 4503599627370496 (-52)) = true ->
  (exists s, x = S754_zero s) \/
  (exists m e, x = S754_finite false m e /\ e <= -52 /\ Z.pos m <= 2 ^ (- e)).
Proof.
  intros Hv H0 H1. destruct x as [s|s| |s m e].
  - left. now exists s.
  - destruct s; discriminate.
  - discriminate.
  - right. destruct s; [discriminate|]. exists m, e. split; [reflexivity|].
    unfold valid_binary, bounded, canonical_mantissa in Hv.
    apply andb_true_iff in Hv as [Hc _]. apply Z.eqb_eq in Hc.
    unfold fexp, SpecFloat.emin, prec, emax in Hc.
    pose proof (digits2_gt m) as Hd.
    assert (Hd53 : Z.pos (digits2_pos m) <= 53) by lia.
    assert (Hm53 : Z.pos m < 2 ^ 53).
    { eapply Z.lt_le_trans; [exact Hd|]. apply Z.pow_le_mono_r; lia. }
    unfold SFleb, SFcompare in H1.
    destruct (Z.compare_spec e (-52)) as [He|He|He]; try discriminate.
    + subst e. split; [lia|].
      change (2 ^ (- -52)) with (Z.pos 4503599627370496).
      apply pos_le_of_compare. revert H1.
      destruct (Pos.compare_cont Eq m 4503599627370496); [easy | easy | discriminate].
    + split; [lia|].
      assert (2 ^ 53 <= 2 ^ (- e)) by (apply Z.pow_le_mono_r; lia). lia.
Qed.

Lemma mul10_sf (m : positive) (e : Z) :
  e <= -52 -> Z.pos m <= 2 ^ (- e) ->
  exists k, F64.trunc_sf (SF64mul (S754_finite false m e) (S754_finite false 5629499534213120 (-49))) = Some k /\
            F64.floor_sf (SF64mul (S754_finite false m e) (S754_finite false 5629499534213120 (-49))) = Some k /\
            0 <= k <= 10.
Proof.
  intros He Hm. unfold SF64mul, SFmul. cbn [xorb].
  assert (Hp : 0 < 2 ^ (- e)) by (apply Z.pow_pos_nonneg; lia).
  assert (Hb := binary_round_aux_le10 (Z.pos (m * 5629499534213120)) (e + -49)).
  assert (HM : Z.pos (m * 5629499534213120) <= 10 * 2 ^ (- (e + -49))).
  { replace (- (e + -49)) with (- e + 49) by lia.
    rewrite pow2_split by lia. change (2 ^ 49) with 562949953421312.
    rewrite Pos2Z.inj_mul. nia. }
  specialize (Hb (Pos2Z.is_pos _) ltac:(lia) HM).
  destruct (binary_round_aux prec emax false (Z.pos (m * 5629499534213120)) (e + -49) loc_Exact)
    as [[|]|[|]| |[|] m' e']; try contradiction.
  - exists 0. cbn [F64.trunc_sf F64.floor_sf]. repeat split; lia.
  - destruct Hb as [He' Hm'].
    assert (Hp' : 0 < 2 ^ (- e')) by (apply Z.pow_pos_nonneg; lia).
    exists (Z.pos m' / 2 ^ (- e')). cbn [F64.trunc_sf F64.floor_sf].
    replace (0 <=? e') with false by (symmetry; apply Z.leb_gt; lia).
    repeat split.
    + apply Z_div_nonneg_nonneg; lia.
    + apply Z.lt_succ_r. apply Z.div_lt_upper_bound; lia.
Qed.

Lemma mul10_unit_interval (c : float) :
  (0 <=? c)%float = true -> (c <=? 1)%float = true ->
  exists k, F64.trunc_sf (Prim2SF (c * 10)) = Some k /\
            F64.floor_sf (Prim2SF (c * 10)) = Some k /\ 0 <= k <= 10.
Proof.
  intros H0 H1. rewrite leb_spec in H0, H1. rewrite mul_spec.
  change (Prim2SF 0) with (S754_zero false) in H0.
  change (Prim2SF 1) with (S754_finite false 4503599627370496 (-52)) in H1.
  change (Prim2SF 10) with (S754_finite false 5629499534213120 (-49)).
  destruct (unit_interval_sf _ (Prim2SF_valid c) H0 H1) as [[s ->]|(m & e & -> & He & Hm)].
  - exists 0. cbn. repeat split; lia.
  - now apply mul10_sf.
Qed.

End F64Facts.

(** ** The card *)

Section CardFacts.

Variable int_overflow : float -> Z.

Lemma bar_loop_spec (n : nat) : forall (i filled : Z) (bar : string),
  bar_loop n i filled bar =
    bar +:+ Str.rep (filled_blocks n i filled) "█"
        +:+ Str.rep (n - filled_blocks n i filled) "░".
Proof.
  induction n as [|n IH]; intros i filled bar.
  - unfold filled_blocks. cbn [bar_loop].
    replace (Z.to_nat _) with O by lia. simpl.
    now rewrite StrFacts.append_nil_r.
  - cbn [bar_loop]. rewrite IH. rewrite StrFacts.append_assoc.
    f_equal. unfold filled_blocks.
    destruct (Z.ltb_spec i filled) as [Hlt|Hge].
    + replace (Z.to_nat (Z.min (Z.max (filled - i) 0) (Z.of_nat (S n))))
        with (S (Z.to_nat (Z.min (Z.max (filled - (i + 1)) 0) (Z.of_nat n)))) by lia.
      cbn [Str.rep]. rewrite StrFacts.append_assoc. reflexivity.
    + replace (Z.to_nat (Z.min (Z.max (filled - (i + 1)) 0) (Z.of_nat n))) with O by lia.
      replace (Z.to_nat (Z.min (Z.max (filled - i) 0) (Z.of_nat (S n)))) with O by lia.
      rewrite !Nat.sub_0_r. reflexivity.
Qed.

Lemma bullet_loop_spec (items : list string) : forall (i : nat) (response : string),
  bullet_loop i items response = response +:+ bullets (take (3 - i) items).
Proof.
  induction items as [|e rest IH]; intros i response.
  - cbn [bullet_loop]. rewrite take_nil. simpl. now rewrite StrFacts.append_nil_r.
  - cbn [bullet_loop]. destruct (Nat.leb_spec 3 i) as [Hge|Hlt].
    + replace (3 - i)%nat with O by lia. simpl. now rewrite StrFacts.append_nil_r.
    + rewrite IH. replace (3 - i)%nat with (S (3 - S i)) by lia.
      cbn [take bullets]. now rewrite !StrFacts.append_assoc.
Qed.

Lemma add_summary_spec (r : AnalyzeResponse) (response : string) :
  add_summary r response = response +:+ text_section "*Summary:*" (Summary r).
Proof.
  unfold add_summary, text_section. destruct (Str.nonempty (Summary r)).
  - reflexivity.
  - now rewrite StrFacts.append_nil_r.
Qed.

Lemma add_recommendation_spec (r : AnalyzeResponse) (response : string) :
  add_recommendation r response =
    response +:+ text_section "*Recommendation:*" (Recommendation r).
Proof.
  unfold add_recommendation, text_section. destruct (Str.nonempty (Recommendation r)).
  - reflexivity.
  - now rewrite StrFacts.append_nil_r.
Qed.

Lemma bullet_section_spec (title : string) (items : list string) (response : string) :
  (if (0 <? length items)%nat
   then bullet_loop 0 items (response +:+ (Str.nl +:+ title +:+ Str.nl))
   else response)
  = response +:+ bullet_section title (take 3 items).
Proof.
  destruct items as [|e rest].
  - simpl. now rewrite StrFacts.append_nil_r.
  - cbn [length Nat.ltb Nat.leb]. rewrite bullet_loop_spec.
    cbn [Nat.sub take bullet_section]. now rewrite !StrFacts.append_assoc.
Qed.

(** The card is its header, then the sections that have something to show,
    then the footer. *)
Lemma formatResponse_sections (r : AnalyzeResponse) :
  formatResponse int_overflow r =
    header int_overflow r
      +:+ text_section "*Summary:*" (Summary r)
      +:+ bullet_section "*Evidence:*" (take 3 (Evidence r))
      +:+ bullet_section "*Sources:*" (take 3 (SourcesChecked r))
      +:+ text_section "*Recommendation:*" (Recommendation r)
      +:+ footer.
Proof.
  unfold formatResponse, add_evidence, add_sources.
  rewrite add_recommendation_spec, !bullet_section_spec, add_summary_spec.
  now rewrite !StrFacts.append_assoc.
Qed.

End CardFacts.

(** ** Claims about the card *)

Section CardClaims.

Variable int_overflow : float -> Z.

Lemma filled_of_unit_interval (r : AnalyzeResponse) :
  (0 <=? Confidence r)%float = true -> (Confidence r <=? 1)%float = true ->
  exists k : Z,
    F64.floor (Confidence r * 10)%float = Some k /\ 0 <= k <= 10 /\
    filled_of int_overflow r = k.
Proof.
  intros H0 H1.
  destruct (F64Facts.mul10_unit_interval _ H0 H1) as (k & Ht & Hf & Hk).
  exists k. split; [exact Hf|]. split; [exact Hk|].
  unfold filled_of, F64.to_int. rewrite Ht.
  replace ((- 2 ^ 63 <=? k) && (k <? 2 ^ 63)) with true; [reflexivity|].
  symmetry. apply andb_true_iff. split; [apply Z.leb_le | apply Z.ltb_lt].
  - change (- 2 ^ 63) with (-9223372036854775808). lia.
  - change (2 ^ 63) with 9223372036854775808. lia.
Qed.

Lemma header_bar (r : AnalyzeResponse) :
  exists before after,
    header int_overflow r =
      before +:+ "[" +:+ confidence_bar int_overflow r +:+ "]" +:+ after.
Proof.
  unfold header. destruct (status_emoji r) as [emoji status].
  exists (emoji +:+ " *" +:+ status +:+ "*" +:+ Str.nl +:+ Str.nl +:+ "*Confidence:* ").
  exists (" " +:+ F64.fmt_f0 (Confidence r * 100)%float +:+ "%" +:+ Str.nl).
  rewrite !StrFacts.append_assoc. reflexivity.
Qed.

(** C3: for a response whose confidence lies in [0, 1], the confidence bar of
    the formatted reply is made of exactly 10 blocks, of which the first
    [floor (confidence * 10)] are filled and the others empty; the product
    is the binary64 product the program computes. *)
Theorem C3_confidence_bar (r : AnalyzeResponse) :
  (0 <=? Confidence r)%float = true -> (Confidence r <=? 1)%float = true ->
  exists k : Z,
    F64.floor (Confidence r * 10)%float = Some k /\ 0 <= k <= 10 /\
    confidence_bar int_overflow r =
      Str.rep (Z.to_nat k) "█" +:+ Str.rep (10 - Z.to_nat k) "░" /\
    exists before after,
      formatResponse int_overflow r =
        before +:+ "[" +:+ confidence_bar int_overflow r +:+ "]" +:+ after.
Proof.
  intros H0 H1.
  destruct (filled_of_unit_interval r H0 H1) as (k & Hf & Hk & Hfilled).
  exists k. split; [exact Hf|]. split; [exact Hk|]. split.
  - unfold confidence_bar. rewrite Hfilled, bar_loop_spec.
    unfold filled_blocks.
    replace (Z.to_nat (Z.min (Z.max (k - 0) 0) (Z.of_nat 10))) with (Z.to_nat k) by lia.
    reflexivity.
  - destruct (header_bar r) as (before & after & Hh).
    rewrite formatResponse_sections, Hh.
    exists before. eexists. rewrite !StrFacts.append_assoc. reflexivity.
Qed.

(** C5: whatever the lengths of the evidence and sources lists, the formatted
    reply shows at most 3 evidence bullets and at most 3 source bullets: the
    first three of each list. *)
Theorem C5_at_most_three_bullets (r : AnalyzeResponse) :
  exists shown_evidence shown_sources : list string,
    shown_evidence = take 3 (Evidence r) /\
    shown_sources = take 3 (SourcesChecked r) /\
    (length shown_evidence <= 3)%nat /\
    (length shown_sources <= 3)%nat /\
    formatResponse int_overflow r =
      header int_overflow r
        +:+ text_section "*Summary:*" (Summary r)
        +:+ bullet_section "*Evidence:*" shown_evidence
        +:+ bullet_section "*Sources:*" shown_sources
        +:+ text_section "*Recommendation:*" (Recommendation r)
        +:+ footer.
Proof.
  exists (take 3 (Evidence r)), (take 3 (SourcesChecked r)).
  split; [reflexivity|]. split; [reflexivity|].
  split; [rewrite length_take; lia|]. split; [rewrite length_take; lia|].
  apply formatResponse_sections.
Qed.

Lemma formatResponse_prefix (r : AnalyzeResponse) :
  String.prefix (fst (status_emoji r) +:+ " *" +:+ snd (status_emoji r) +:+ "*")
    (formatResponse int_overflow r) = true.
Proof.
  rewrite formatResponse_sections. unfold header.
  destruct (status_emoji r) as [emoji status]. cbn [fst snd].
  set (rest := text_section _ _ +:+ _).
  replace ((emoji +:+ " *" +:+ status +:+ "*" +:+ Str.nl +:+ Str.nl
              +:+ "*Confidence:* [" +:+ confidence_bar int_overflow r +:+ "] "
              +:+ F64.fmt_f0 (Confidence r * 100)%float +:+ "%" +:+ Str.nl) +:+ rest)
    with ((emoji +:+ " *" +:+ status +:+ "*") +:+
            (Str.nl +:+ Str.nl
              +:+ "*Confidence:* [" +:+ confidence_bar int_overflow r +:+ "] "
              +:+ F64.fmt_f0 (Confidence r * 100)%float +:+ "%" +:+ Str.nl +:+ rest))
    by (rewrite !StrFacts.append_assoc; reflexivity).
  apply StrFacts.prefix_append.
Qed.

End CardClaims.

(** ** Claims about the relay *)

(** *** Tactics: running a handler against the world's answers *)

Ltac bot_unfold :=
  unfold run, eventHandler, handleMessage, handleImageMessage, analyzeText,
    analyzeImage, sendMessage, http_Post, http_Do, http_NewRequest,
    FormDataContentType, client_Download, client_SendMessage, Printf, act,
    set_content_type, mbind, mret, Bot_bind, Bot_ret.

Ltac bot_step :=
  match goal with
  | |- context [negb (IsFromMe ?i)] => destruct (IsFromMe i) eqn:?
  | |- context [GetImageMessage ?m] => destruct (GetImageMessage m) eqn:?
  | |- context [(?a <? ?b)%nat] => destruct (a <? b)%nat eqn:?
  | |- context [download ?w ?i] => destruct (download w i) eqn:?
  | |- context [url_error ?w ?u] => destruct (url_error w u) eqn:?
  | |- context [round_trip ?w ?r] => destruct (round_trip w r) eqn:?
  | |- context [StatusCode ?r =? 200] => destruct (StatusCode r =? 200) eqn:?
  | |- context [Decode ?r] => destruct (Decode r) eqn:?
  | |- context [negb (IsNews ?r)] => destruct (IsNews r) eqn:?
  | |- context [send_message ?w ?c ?m] => destruct (send_message w c m) eqn:?
  end; cbn.

Ltac bot_cases := cbn; repeat bot_step.

(** The facts about the backend's answer, brought to the answer at hand. *)
Ltac backend_facts :=
  unfold backend_ok, backend_failed, text_request, image_request in *;
  repeat (match goal with
          | H : _ /\ _ |- _ => destruct H
          | H : _ \/ _ |- _ => destruct H
          | H : exists _, _ |- _ => destruct H
          | H : (_ =? _) = true |- _ => apply Z.eqb_eq in H
          | H : (_ =? _) = false |- _ => apply Z.eqb_neq in H
          | H1 : ?t = _, H2 : ?t = _ |- _ => rewrite H1 in H2
          end; simplify_eq/=);
  try congruence.

Section RelayClaims.

Variable int_overflow : float -> Z.
Context {JID ImageMessage : Type}.
Variable JID_String : JID -> string.
Variable config : Config.

Abbreviation run' := (run int_overflow JID_String config).
Abbreviation card := (formatResponse int_overflow).

#[local] Opaque formatResponse String.append Nat.ltb.

(** What [sendMessage] does: one send, and a log line when it fails. *)
Lemma sendMessage_trace (w : World JID ImageMessage) (evt : MessageEvent JID ImageMessage)
    (text : string) :
  exists log,
    snd (sendMessage JID JID_String ImageMessage evt text w) =
      SendMessage (Chat (Info evt)) (quoted_reply JID_String evt text) :: log /\
    requests log = [] /\ replies log = [] /\ downloads log = [].
Proof.
  bot_unfold. unfold quoted_reply.
  destruct (send_message w _ _); eexists; repeat split; reflexivity.
Qed.

Lemma In_replies (t : list (Action JID ImageMessage)) (to : JID) (msg : Message ImageMessage) :
  In (SendMessage to msg) t -> In (to, msg) (replies t).
Proof.
  induction t as [|a t IH]; intros Hin; [destruct Hin|].
  destruct Hin as [->|Hin]; [now left|].
  unfold replies in *. cbn [omap list_omap]. destruct a; auto. right. auto.
Qed.

(** An event is answered at most once, and only a message is answered: with a
    reply that quotes it, in its chat. *)
Lemma run_replies (w : World JID ImageMessage) (evt : Event JID ImageMessage) :
  replies (run' w evt) = [] \/
  exists v text,
    evt = EvMessage v /\ replies (run' w evt) = [(Chat (Info v), quoted_reply JID_String v text)].
Proof.
  destruct evt as [v| | | |]; try (left; reflexivity).
  bot_unfold. unfold quoted_reply.
  bot_cases; eauto.
Qed.

(** C6: a message event that the bot's own account sent is ignored: the
    handler does nothing at all, so it makes no backend call and sends no
    reply. *)
Theorem C6_own_messages_ignored (w : World JID ImageMessage)
    (v : MessageEvent JID ImageMessage) :
  IsFromMe (Info v) = true -> run' w (EvMessage v) = [].
Proof. intros Hme. bot_unfold. rewrite Hme. reflexivity. Qed.

Lemma text_gate_closed (w : World JID ImageMessage) (v : MessageEvent JID ImageMessage) :
  IsFromMe (Info v) = false -> GetImageMessage (Msg v) = None ->
  (String.length (message_text (Msg v)) < 10)%nat ->
  run' w (EvMessage v) = [].
Proof.
  intros Hme Himg Hlen. apply Nat.ltb_lt in Hlen.
  bot_unfold. rewrite Hme, Himg. cbn. rewrite Hlen. reflexivity.
Qed.

Lemma text_gate_open (w : World JID ImageMessage) (v : MessageEvent JID ImageMessage) :
  IsFromMe (Info v) = false -> GetImageMessage (Msg v) = None ->
  (10 <= String.length (message_text (Msg v)))%nat ->
  requests (run' w (EvMessage v)) = [text_request config (message_text (Msg v))] /\
  downloads (run' w (EvMessage v)) = [].
Proof.
  intros Hme Himg Hlen. apply Nat.ltb_ge in Hlen.
  bot_unfold. rewrite Hme, Himg. cbn. rewrite Hlen.
  bot_cases; split; reflexivity.
Qed.

Lemma text_answer_failed (w : World JID ImageMessage) (v : MessageEvent JID ImageMessage) :
  IsFromMe (Info v) = false -> GetImageMessage (Msg v) = None ->
  (10 <= String.length (message_text (Msg v)))%nat ->
  backend_failed (round_trip w (text_request config (message_text (Msg v)))) ->
  replies (run' w (EvMessage v)) = [(Chat (Info v), quoted_reply JID_String v err_connect)].
Proof.
  intros Hme Himg Hlen Hfail. apply Nat.ltb_ge in Hlen.
  bot_unfold. rewrite Hme, Himg. cbn. rewrite Hlen.
  bot_cases; backend_facts; reflexivity.
Qed.

Lemma text_answer_ok (w : World JID ImageMessage) (v : MessageEvent JID ImageMessage)
    (r : AnalyzeResponse) :
  IsFromMe (Info v) = false -> GetImageMessage (Msg v) = None ->
  (10 <= String.length (message_text (Msg v)))%nat ->
  backend_ok (round_trip w (text_request config (message_text (Msg v)))) r ->
  replies (run' w (EvMessage v)) =
    if IsNews r then [(Chat (Info v), quoted_reply JID_String v (card r))] else [].
Proof.
  intros Hme Himg Hlen Hok. apply Nat.ltb_ge in Hlen.
  bot_unfold. rewrite Hme, Himg. cbn. rewrite Hlen.
  bot_cases; backend_facts;
    match goal with H : IsNews _ = _ |- _ => rewrite H end; reflexivity.
Qed.

Lemma image_download_failed (w : World JID ImageMessage) (v : MessageEvent JID ImageMessage)
    (img : ImageMessage) (err : error) :
  IsFromMe (Info v) = false -> GetImageMessage (Msg v) = Some img ->
  download w img = Err err ->
  replies (run' w (EvMessage v)) = [(Chat (Info v), quoted_reply JID_String v err_download)] /\
  requests (run' w (EvMessage v)) = [].
Proof.
  intros Hme Himg Hdl.
  bot_unfold. rewrite Hme, Himg. cbn. rewrite Hdl.
  bot_cases; split; reflexivity.
Qed.

Lemma image_request_refused (w : World JID ImageMessage) (v : MessageEvent JID ImageMessage)
    (img : ImageMessage) (data : list Byte.byte) (err : error) :
  IsFromMe (Info v) = false -> GetImageMessage (Msg v) = Some img ->
  download w img = Ok data ->
  url_error w (BackendURL config +:+ "/analyze/image") = Some err ->
  replies (run' w (EvMessage v)) = [(Chat (Info v), quoted_reply JID_String v err_analyze_image)] /\
  requests (run' w (EvMessage v)) = [].
Proof.
  intros Hme Himg Hdl Hurl.
  bot_unfold. rewrite Hme, Himg. cbn. rewrite Hdl. cbn. rewrite Hurl.
  bot_cases; split; reflexivity.
Qed.

Lemma image_answer_failed (w : World JID ImageMessage) (v : MessageEvent JID ImageMessage)
    (img : ImageMessage) (data : list Byte.byte) :
  IsFromMe (Info v) = false -> GetImageMessage (Msg v) = Some img ->
  download w img = Ok data ->
  url_error w (BackendURL config +:+ "/analyze/image") = None ->
  backend_failed (round_trip w (image_request config (boundary w) data)) ->
  replies (run' w (EvMessage v)) = [(Chat (Info v), quoted_reply JID_String v err_analyze_image)] /\
  requests (run' w (EvMessage v)) = [image_request config (boundary w) data].
Proof.
  intros Hme Himg Hdl Hurl Hfail.
  bot_unfold. rewrite Hme, Himg. cbn. rewrite Hdl. cbn. rewrite Hurl.
  bot_cases; backend_facts; split; reflexivity.
Qed.

Lemma image_answer_ok (w : World JID ImageMessage) (v : MessageEvent JID ImageMessage)
    (img : ImageMessage) (data : list Byte.byte) (r : AnalyzeResponse) :
  IsFromMe (Info v) = false -> GetImageMessage (Msg v) = Some img ->
  download w img = Ok data ->
  url_error w (BackendURL config +:+ "/analyze/image") = None ->
  backend_ok (round_trip w (image_request config (boundary w) data)) r ->
  replies (run' w (EvMessage v)) = [(Chat (Info v), quoted_reply JID_String v (card r))] /\
  requests (run' w (EvMessage v)) = [image_request config (boundary w) data].
Proof.
  intros Hme Himg Hdl Hurl Hok.
  bot_unfold. rewrite Hme, Himg. cbn. rewrite Hdl. cbn. rewrite Hurl.
  bot_cases; backend_facts; split; reflexivity.
Qed.

Lemma backend_ok_or_failed (res : result HttpResponse) :
  (exists r, backend_ok res r) \/ backend_failed res.
Proof.
  unfold backend_ok, backend_failed.
  destruct res as [resp|err]; [|right; left; eauto].
  destruct (Z.eq_dec (StatusCode resp) 200) as [Hs|Hs]; [|right; right; eauto].
  destruct (Decode resp) as [r|err] eqn:Hd; [left; eauto|right; right; eauto 6].
Qed.

Lemma reply_texts_one (t : list (Action JID ImageMessage)) (to : JID)
    (v : MessageEvent JID ImageMessage) (text : string) :
  replies t = [(to, quoted_reply JID_String v text)] -> reply_texts t = [text].
Proof. unfold reply_texts. intros ->. reflexivity. Qed.

(** C1: what the relay does with a backend response whose [is_news] is false.
    For a text message nothing is sent.  For an image message the verdict
    card is sent all the same: the image handler has no such filter. *)
Theorem C1_not_news_text_dropped_image_answered (w : World JID ImageMessage)
    (v : MessageEvent JID ImageMessage) (r : AnalyzeResponse) :
  IsFromMe (Info v) = false -> IsNews r = false ->
  (GetImageMessage (Msg v) = None ->
   (10 <= String.length (message_text (Msg v)))%nat ->
   backend_ok (round_trip w (text_request config (message_text (Msg v)))) r ->
   replies (run' w (EvMessage v)) = []) /\
  (forall img data,
     GetImageMessage (Msg v) = Some img ->
     download w img = Ok data ->
     url_error w (BackendURL config +:+ "/analyze/image") = None ->
     backend_ok (round_trip w (image_request config (boundary w) data)) r ->
     reply_texts (run' w (EvMessage v)) = [card r]).
Proof.
  intros Hme Hnews. split.
  - intros Himg Hlen Hok.
    rewrite (text_answer_ok w v r Hme Himg Hlen Hok), Hnews. reflexivity.
  - intros img data Himg Hdl Hurl Hok.
    destruct (image_answer_ok w v img data r Hme Himg Hdl Hurl Hok) as [Hr _].
    exact (reply_texts_one _ _ _ _ Hr).
Qed.

(** C2, amended: the gate is on the byte length of the extracted text.  A
    text message from someone else whose text is shorter than 10 bytes is
    dropped without any action; one of 10 bytes or more is posted as JSON to
    the backend's [/analyze/text] endpoint, once. *)
Theorem C2_length_gate_in_bytes (w : World JID ImageMessage)
    (v : MessageEvent JID ImageMessage) :
  IsFromMe (Info v) = false -> GetImageMessage (Msg v) = None ->
  ((String.length (message_text (Msg v)) < 10)%nat ->
     run' w (EvMessage v) = []) /\
  ((10 <= String.length (message_text (Msg v)))%nat ->
     requests (run' w (EvMessage v)) =
       [{| Method := "POST";
           URL := BackendURL config +:+ "/analyze/text";
           ContentType := "application/json";
           Body := JSONBody {| Text := message_text (Msg v) |} |}]).
Proof.
  intros Hme Himg. split; intros Hlen.
  - now apply text_gate_closed.
  - now apply text_gate_open.
Qed.

(** C4: a failure while handling a message is answered, never fatal: the
    handler returns, having sent exactly one reply, which is one of three
    fixed strings that start with the cross mark.  A failed backend call on
    the text path (no response, a status other than 200, an undecodable body)
    gives the connection error; a failed download gives the download error; a
    failed analysis of an image gives the image error.  The backend is asked
    at most once: there is no retry. *)
Theorem C4_failures_answered_with_fixed_errors (w : World JID ImageMessage)
    (v : MessageEvent JID ImageMessage) :
  IsFromMe (Info v) = false ->
  (GetImageMessage (Msg v) = None ->
   (10 <= String.length (message_text (Msg v)))%nat ->
   (backend_failed (round_trip w (text_request config (message_text (Msg v)))) ->
      reply_texts (run' w (EvMessage v)) = [err_connect] /\
      requests (run' w (EvMessage v)) = [text_request config (message_text (Msg v))]) /\
   (forall resp,
      round_trip w (text_request config (message_text (Msg v))) = Ok resp ->
      StatusCode resp <> 200 ->
      reply_texts (run' w (EvMessage v)) = [err_connect])) /\
  (forall img, GetImageMessage (Msg v) = Some img ->
     (forall err, download w img = Err err ->
        reply_texts (run' w (EvMessage v)) = [err_download] /\
        requests (run' w (EvMessage v)) = []) /\
     (forall data, download w img = Ok data ->
        (forall err, url_error w (BackendURL config +:+ "/analyze/image") = Some err ->
           reply_texts (run' w (EvMessage v)) = [err_analyze_image] /\
           requests (run' w (EvMessage v)) = []) /\
        (url_error w (BackendURL config +:+ "/analyze/image") = None ->
         backend_failed (round_trip w (image_request config (boundary w) data)) ->
           reply_texts (run' w (EvMessage v)) = [err_analyze_image] /\
           requests (run' w (EvMessage v)) = [image_request config (boundary w) data]))) /\
  (String.prefix "❌" err_connect = true /\
   String.prefix "❌" err_download = true /\
   String.prefix "❌" err_analyze_image = true).
Proof.
  intros Hme. split; [|split].
  - intros Himg Hlen. split.
    + intros Hfail. split.
      * exact (reply_texts_one _ _ _ _ (text_answer_failed w v Hme Himg Hlen Hfail)).
      * exact (proj1 (text_gate_open w v Hme Himg Hlen)).
    + intros resp Hr Hs.
      refine (reply_texts_one _ _ _ _ (text_answer_failed w v Hme Himg Hlen _)).
      right. exists resp. split; [exact Hr | now left].
  - intros img Himg. split.
    + intros err Hdl.
      destruct (image_download_failed w v img err Hme Himg Hdl) as [Hr Hq].
      split; [exact (reply_texts_one _ _ _ _ Hr) | exact Hq].
    + intros data Hdl. split.
      * intros err Hurl.
        destruct (image_request_refused w v img data err Hme Himg Hdl Hurl) as [Hr Hq].
        split; [exact (reply_texts_one _ _ _ _ Hr) | exact Hq].
      * intros Hurl Hfail.
        destruct (image_answer_failed w v img data Hme Himg Hdl Hurl Hfail) as [Hr Hq].
        split; [exact (reply_texts_one _ _ _ _ Hr) | exact Hq].
  - repeat split; apply StrFacts.prefix_append.
Qed.

(** C7: every message the relay sends, a verdict card or an error string, is
    a quoted reply: it goes to the chat of the message it answers, and its
    context info carries that message's identifier, its sender and the
    message itself. *)
Theorem C7_replies_quote_the_original (w : World JID ImageMessage)
    (evt : Event JID ImageMessage) (to : JID) (msg : Message ImageMessage) :
  In (SendMessage to msg) (run' w evt) ->
  exists v ext ctx,
    evt = EvMessage v /\ to = Chat (Info v) /\
    ExtendedTextMessage_ msg = Some ext /\ ContextInfo_ ext = Some ctx /\
    StanzaID ctx = Some (ID (Info v)) /\
    Participant ctx = Some (JID_String (Sender (Info v))) /\
    QuotedMessage ctx = Msg v.
Proof.
  intros Hin. apply In_replies in Hin.
  destruct (run_replies w evt) as [Hnone|(v & text & -> & Hone)].
  - rewrite Hnone in Hin. destruct Hin.
  - rewrite Hone in Hin. destruct Hin as [Heq|[]].
    injection Heq as <- <-.
    exists v. eexists. eexists. repeat split.
Qed.

(** C9: an image message from someone else is answered exactly once,
    whatever text comes with it (there is no length gate on this path): with
    the verdict card when the download and the backend call succeed, whether
    or not the response says it is news, and with a fixed error string when
    the download or the analysis fails. *)
Theorem C9_image_always_answered (w : World JID ImageMessage)
    (v : MessageEvent JID ImageMessage) (img : ImageMessage) :
  IsFromMe (Info v) = false -> GetImageMessage (Msg v) = Some img ->
  length (replies (run' w (EvMessage v))) = 1%nat /\
  (forall data r,
     download w img = Ok data ->
     url_error w (BackendURL config +:+ "/analyze/image") = None ->
     backend_ok (round_trip w (image_request config (boundary w) data)) r ->
     reply_texts (run' w (EvMessage v)) = [card r]) /\
  (forall err, download w img = Err err ->
     reply_texts (run' w (EvMessage v)) = [err_download]) /\
  (forall data, download w img = Ok data ->
     url_error w (BackendURL config +:+ "/analyze/image") <> None \/
     backend_failed (round_trip w (image_request config (boundary w) data)) ->
     reply_texts (run' w (EvMessage v)) = [err_analyze_image]).
Proof.
  intros Hme Himg. split; [|split; [|split]].
  - destruct (download w img) as [data|err] eqn:Hdl.
    + destruct (url_error w (BackendURL config +:+ "/analyze/image")) as [err|] eqn:Hurl.
      * destruct (image_request_refused w v img data err Hme Himg Hdl Hurl) as [-> _].
        reflexivity.
      * destruct (backend_ok_or_failed
                    (round_trip w (image_request config (boundary w) data)))
          as [[r Hok]|Hfail].
        -- destruct (image_answer_ok w v img data r Hme Himg Hdl Hurl Hok) as [-> _].
           reflexivity.
        -- destruct (image_answer_failed w v img data Hme Himg Hdl Hurl Hfail) as [-> _].
           reflexivity.
    + destruct (image_download_failed w v img err Hme Himg Hdl) as [-> _]. reflexivity.
  - intros data r Hdl Hurl Hok.
    destruct (image_answer_ok w v img data r Hme Himg Hdl Hurl Hok) as [Hr _].
    exact (reply_texts_one _ _ _ _ Hr).
  - intros err Hdl.
    destruct (image_download_failed w v img err Hme Himg Hdl) as [Hr _].
    exact (reply_texts_one _ _ _ _ Hr).
  - intros data Hdl [Hurl|Hfail].
    + destruct (url_error w (BackendURL config +:+ "/analyze/image")) as [err|] eqn:Hu;
        [|now destruct Hurl].
      destruct (image_request_refused w v img data err Hme Himg Hdl Hu) as [Hr _].
      exact (reply_texts_one _ _ _ _ Hr).
    + destruct (url_error w (BackendURL config +:+ "/analyze/image")) as [err|] eqn:Hu.
      * destruct (image_request_refused w v img data err Hme Himg Hdl Hu) as [Hr _].
        exact (reply_texts_one _ _ _ _ Hr).
      * destruct (image_answer_failed w v img data Hme Himg Hdl Hu Hfail) as [Hr _].
        exact (reply_texts_one _ _ _ _ Hr).
Qed.

(** Every request of a handled event is the text request or the image
    request, built on the configured URL. *)
Lemma run_requests (w : World JID ImageMessage) (evt : Event JID ImageMessage)
    (req : HttpRequest) :
  In req (requests (run' w evt)) ->
  URL req = BackendURL config +:+ "/analyze/text" \/
  URL req = BackendURL config +:+ "/analyze/image".
Proof.
  destruct evt as [v| | | |]; try (intros []).
  bot_unfold. bot_cases; intros Hin; cbn in Hin;
    repeat (destruct Hin as [<-|Hin]; [cbn; auto|]); destruct Hin.
Qed.

End RelayClaims.

(** ** The configured URL *)

Lemma getEnv_spec (env : gmap string string) (key defaultValue : string) :
  getEnv env key defaultValue =
    match env !! key with
    | Some "" | None => defaultValue
    | Some value => value
    end.
Proof.
  unfold getEnv, Getenv. destruct (env !! key) as [[|a value]|]; reflexivity.
Qed.

(** C8, amended: at startup the backend URL is the value of [BACKEND_URL]
    when that variable is set to a non-empty value, and
    [http://localhost:8000] when it is not set or set to the empty string;
    every backend request of a handled event targets [/analyze/text] or
    [/analyze/image] under this URL. *)
Theorem C8_backend_url_from_environment (int_overflow : float -> Z)
    {JID ImageMessage : Type} (JID_String : JID -> string)
    (env : gmap string string) (w : World JID ImageMessage)
    (evt : Event JID ImageMessage) :
  (forall value, env !! "BACKEND_URL" = Some value -> value <> "" ->
     BackendURL (init env) = value) /\
  (env !! "BACKEND_URL" = None \/ env !! "BACKEND_URL" = Some "" ->
     BackendURL (init env) = "http://localhost:8000") /\
  (forall req, In req (requests (run int_overflow JID_String (init env) w evt)) ->
     URL req = BackendURL (init env) +:+ "/analyze/text" \/
     URL req = BackendURL (init env) +:+ "/analyze/image").
Proof.
  unfold init at 1 2. cbn [BackendURL]. rewrite getEnv_spec. repeat split.
  - intros value -> Hne. destruct value; [now destruct Hne | reflexivity].
  - intros [-> | ->]; reflexivity.
  - apply run_requests.
Qed.

Lemma C1_witness :
  (GetImageMessage (Msg (Demo.image_message "hi" [])) = None ->
   (10 <= String.length (message_text (Msg (Demo.image_message "hi" []))))%nat ->
   backend_ok
     (round_trip (Demo.world (Demo.answer_ok false))
        (text_request Demo.config (message_text (Msg (Demo.image_message "hi" [])))))
     (Demo.verdict false) ->
   replies (run Demo.overflow Demo.jid_string Demo.config
              (Demo.world (Demo.answer_ok false))
              (EvMessage (Demo.image_message "hi" []))) = []) /\
  (forall img data,
     GetImageMessage (Msg (Demo.image_message "hi" [])) = Some img ->
     download (Demo.world (Demo.answer_ok false)) img = Ok data ->
     url_error (Demo.world (Demo.answer_ok false))
       (BackendURL Demo.config +:+ "/analyze/image") = None ->
     backend_ok
       (round_trip (Demo.world (Demo.answer_ok false))
          (image_request Demo.config (boundary (Demo.world (Demo.answer_ok false))) data))
       (Demo.verdict false) ->
     reply_texts (run Demo.overflow Demo.jid_string Demo.config
                    (Demo.world (Demo.answer_ok false))
                    (EvMessage (Demo.image_message "hi" []))) =
       [formatResponse Demo.overflow (Demo.verdict false)]).
Proof.
  apply (C1_not_news_text_dropped_image_answered Demo.overflow Demo.jid_string
           Demo.config (Demo.world (Demo.answer_ok false))
           (Demo.image_message "hi" []) (Demo.verdict false));
    reflexivity.
Defined.

(** At the failing input of C1: an image, downloaded and analysed with
    success, whose verdict says it is not news, is answered with the card. *)
Lemma C1_image_not_news_is_answered :
  IsNews (Demo.verdict false) = false /\
  reply_texts (run Demo.overflow Demo.jid_string Demo.config
                 (Demo.world (Demo.answer_ok false))
                 (EvMessage (Demo.image_message "hi" []))) =
    [formatResponse Demo.overflow (Demo.verdict false)].
Proof. split; reflexivity. Qed.

(** C2 as stated fails: a text of 3 characters (12 bytes) passes the gate and
    is posted to the backend. *)
Lemma C2_counterexample_multibyte_text :
  (Str.rune_count Demo.sirens < 10)%nat /\
  message_text (Msg (Demo.text_message false Demo.sirens)) = Demo.sirens /\
  requests (run Demo.overflow Demo.jid_string Demo.config
              (Demo.world (Demo.answer_ok true))
              (EvMessage (Demo.text_message false Demo.sirens))) =
    [text_request Demo.config Demo.sirens].
Proof. split; [vm_compute; lia | split; reflexivity]. Qed.

Lemma C2_witness :
  ((String.length (message_text (Msg (Demo.text_message false "too short"))) < 10)%nat ->
     run Demo.overflow Demo.jid_string Demo.config (Demo.world Demo.answer_500)
       (EvMessage (Demo.text_message false "too short")) = []) /\
  ((10 <= String.length (message_text (Msg (Demo.text_message false "too short"))))%nat ->
     requests (run Demo.overflow Demo.jid_string Demo.config (Demo.world Demo.answer_500)
                 (EvMessage (Demo.text_message false "too short"))) =
       [{| Method := "POST";
           URL := BackendURL Demo.config +:+ "/analyze/text";
           ContentType := "application/json";
           Body := JSONBody
                     {| Text := message_text (Msg (Demo.text_message false "too short")) |} |}]).
Proof.
  apply (C2_length_gate_in_bytes Demo.overflow Demo.jid_string Demo.config
           (Demo.world Demo.answer_500) (Demo.text_message false "too short"));
    reflexivity.
Defined.

Lemma C3_witness :
  exists k : Z,
    F64.floor (Confidence (Demo.verdict true) * 10)%float = Some k /\ 0 <= k <= 10 /\
    confidence_bar Demo.overflow (Demo.verdict true) =
      Str.rep (Z.to_nat k) "█" +:+ Str.rep (10 - Z.to_nat k) "░" /\
    exists before after,
      formatResponse Demo.overflow (Demo.verdict true) =
        before +:+ "[" +:+ confidence_bar Demo.overflow (Demo.verdict true) +:+ "]" +:+ after.
Proof.
  apply (C3_confidence_bar Demo.overflow (Demo.verdict true)); reflexivity.
Defined.

Lemma C6_witness :
  run Demo.overflow Demo.jid_string Demo.config (Demo.world (Demo.answer_ok true))
    (EvMessage (Demo.text_message true "a message of my own")) = [].
Proof.
  apply (C6_own_messages_ignored Demo.overflow Demo.jid_string Demo.config
           (Demo.world (Demo.answer_ok true))
           (Demo.text_message true "a message of my own")).
  reflexivity.
Defined.

(** C8 as stated fails: with [BACKEND_URL] set to the empty string the URL is
    not taken from the variable; it is the default. *)
Lemma C8_counterexample_empty_value :
  ({[ "BACKEND_URL" := "" ]} : gmap string string) !! "BACKEND_URL" = Some "" /\
  BackendURL (init {[ "BACKEND_URL" := "" ]}) = "http://localhost:8000".
Proof. split; reflexivity. Qed.

Lemma C4_witness :
  reply_texts (run Demo.overflow Demo.jid_string Demo.config (Demo.world Demo.answer_500)
                 (EvMessage (Demo.text_message false "Breaking: the moon is made of cheese")))
    = [err_connect] /\
  requests (run Demo.overflow Demo.jid_string Demo.config (Demo.world Demo.answer_500)
              (EvMessage (Demo.text_message false "Breaking: the moon is made of cheese")))
    = [text_request Demo.config "Breaking: the moon is made of cheese"].
Proof.
  refine (proj1 (proj1 (C4_failures_answered_with_fixed_errors Demo.overflow
                   Demo.jid_string Demo.config (Demo.world Demo.answer_500)
                   (Demo.text_message false "Breaking: the moon is made of cheese")
                   eq_refl) eq_refl _) _).
  - vm_compute. lia.
  - right. exists {| StatusCode := 500; Decode := Err "unexpected end of JSON input" |}.
    split; [reflexivity|]. left. discriminate.
Defined.

Lemma C7_witness :
  exists v ext ctx,
    EvMessage (Demo.text_message false "Breaking: the moon is made of cheese")
      = EvMessage v /\
    "family@g.us" = Chat (Info v) /\
    ExtendedTextMessage_
      (quoted_reply Demo.jid_string
         (Demo.text_message false "Breaking: the moon is made of cheese") err_connect)
      = Some ext /\
    ContextInfo_ ext = Some ctx /\
    StanzaID ctx = Some (ID (Info v)) /\
    Participant ctx = Some (Demo.jid_string (Sender (Info v))) /\
    QuotedMessage ctx = Msg v.
Proof.
  apply (C7_replies_quote_the_original Demo.overflow Demo.jid_string Demo.config
           (Demo.world Demo.answer_500)).
  right. right. right. left. reflexivity.
Defined.

Lemma C9_witness :
  length (replies (run Demo.overflow Demo.jid_string Demo.config
                     (Demo.world (Demo.answer_ok false))
                     (EvMessage (Demo.image_message "" [])))) = 1%nat /\
  (forall data r,
     download (Demo.world (Demo.answer_ok false)) [] = Ok data ->
     url_error (Demo.world (Demo.answer_ok false))
       (BackendURL Demo.config +:+ "/analyze/image") = None ->
     backend_ok
       (round_trip (Demo.world (Demo.answer_ok false))
          (image_request Demo.config (boundary (Demo.world (Demo.answer_ok false))) data)) r ->
     reply_texts (run Demo.overflow Demo.jid_string Demo.config
                    (Demo.world (Demo.answer_ok false))
                    (EvMessage (Demo.image_message "" []))) =
       [formatResponse Demo.overflow r]) /\
  (forall err, download (Demo.world (Demo.answer_ok false)) [] = Err err ->
     reply_texts (run Demo.overflow Demo.jid_string Demo.config
                    (Demo.world (Demo.answer_ok false))
                    (EvMessage (Demo.image_message "" []))) = [err_download]) /\
  (forall data, download (Demo.world (Demo.answer_ok false)) [] = Ok data ->
     url_error (Demo.world (Demo.answer_ok false))
       (BackendURL Demo.config +:+ "/analyze/image") <> None \/
     backend_failed
       (round_trip (Demo.world (Demo.answer_ok false))
          (image_request Demo.config (boundary (Demo.world (Demo.answer_ok false))) data)) ->
     reply_texts (run Demo.overflow Demo.jid_string Demo.config
                    (Demo.world (Demo.answer_ok false))
                    (EvMessage (Demo.image_message "" []))) = [err_analyze_image]).
Proof.
  apply (C9_image_always_answered Demo.overflow Demo.jid_string Demo.config
           (Demo.world (Demo.answer_ok false)) (Demo.image_message "" []) []);
    reflexivity.
Defined.

(** * Further properties of the code *)

(** ** The card *)

Section CardExtras.

Variable int_overflow : float -> Z.

Lemma append_length (a b : string) :
  String.length (a +:+ b) = (String.length a + String.length b)%nat.
Proof. induction a as [|x a IH]; simpl; [reflexivity | now rewrite IH]. Qed.

Lemma rep_length (n : nat) (s : string) :
  String.length (Str.rep n s) = (n * String.length s)%nat.
Proof.
  induction n as [|n IH]; [reflexivity|].
  cbn [Str.rep]. rewrite append_length, IH. lia.
Qed.

(** X1: Whatever the confidence (a NaN, a negative value, a value above 1), the
    bar is made of 10 blocks, 30 bytes: the filled ones first, as many as the
    integer part of [confidence * 10] kept between 0 and 10. *)
Theorem bar_always_ten_blocks (r : AnalyzeResponse) :
  exists k : nat,
    k = Z.to_nat (Z.min (Z.max (filled_of int_overflow r) 0) 10) /\
    (k <= 10)%nat /\
    confidence_bar int_overflow r = Str.rep k "█" +:+ Str.rep (10 - k) "░" /\
    String.length (confidence_bar int_overflow r) = 30%nat.
Proof.
  exists (filled_blocks 10 0 (filled_of int_overflow r)).
  assert (Hk : filled_blocks 10 0 (filled_of int_overflow r)
               = Z.to_nat (Z.min (Z.max (filled_of int_overflow r) 0) 10)).
  { unfold filled_blocks. f_equal. lia. }
  assert (Hle : (filled_blocks 10 0 (filled_of int_overflow r) <= 10)%nat).
  { rewrite Hk. lia. }
  assert (Hbar : confidence_bar int_overflow r =
                 Str.rep (filled_blocks 10 0 (filled_of int_overflow r)) "█"
                   +:+ Str.rep (10 - filled_blocks 10 0 (filled_of int_overflow r)) "░").
  { unfold confidence_bar. rewrite bar_loop_spec. reflexivity. }
  repeat split; try assumption.
  rewrite Hbar, append_length, !rep_length.
  change (String.length "█") with 3%nat. change (String.length "░") with 3%nat. lia.
Qed.

Lemma header_congruence (r r' : AnalyzeResponse) :
  IsMisinformation r = IsMisinformation r' -> Confidence r = Confidence r' ->
  header int_overflow r = header int_overflow r'.
Proof.
  intros Hm Hc.
  unfold header, status_emoji, confidence_bar, filled_of. now rewrite Hm, Hc.
Qed.

(** X2: The card shows the verdict flag, the confidence, the summary, the first
    three evidence items, the first three sources and the recommendation, and
    nothing else: [is_news], [message_type] and the items after the third do
    not change it. *)
Theorem card_depends_on_shown_fields_only (r r' : AnalyzeResponse) :
  IsMisinformation r = IsMisinformation r' ->
  Confidence r = Confidence r' ->
  Summary r = Summary r' ->
  take 3 (Evidence r) = take 3 (Evidence r') ->
  take 3 (SourcesChecked r) = take 3 (SourcesChecked r') ->
  Recommendation r = Recommendation r' ->
  formatResponse int_overflow r = formatResponse int_overflow r'.
Proof.
  intros Hm Hc Hs He Hsrc Hr.
  rewrite !formatResponse_sections, (header_congruence r r' Hm Hc), Hs, He, Hsrc, Hr.
  reflexivity.
Qed.

(** X3: A section with nothing to show is left out, title included: a verdict
    with no summary, no evidence, no sources and no recommendation gives the
    header followed by the footer. *)
Theorem card_omits_empty_sections (r : AnalyzeResponse) :
  Summary r = "" -> Evidence r = [] -> SourcesChecked r = [] -> Recommendation r = "" ->
  formatResponse int_overflow r = header int_overflow r +:+ footer.
Proof.
  intros Hs He Hsrc Hr. rewrite formatResponse_sections, Hs, He, Hsrc, Hr.
  reflexivity.
Qed.

End CardExtras.

(** ** The threshold *)

Module Threshold.

Lemma digits2_le (m : positive) : 2 ^ (Z.pos (digits2_pos m) - 1) <= Z.pos m.
Proof.
  rewrite F64Facts.digits2_size. pose proof (Pos.size_le m) as H.
  assert (Hz : 2 ^ Z.pos (Pos.size m) <= 2 * Z.pos m).
  { change (2 * Z.pos m) with (Z.pos m~0). rewrite <- Pos2Z.inj_pow. exact H. }
  replace (Z.pos (Pos.size m)) with (Z.pos (Pos.size m) - 1 + 1) in Hz by lia.
  rewrite Z.pow_add_r in Hz by lia. lia.
Qed.

(** The mantissa of a valid finite binary64 value has at most 53 bits, and
    exactly 53 unless the exponent is the least one. *)
Lemma valid_mantissa (m : positive) (e : Z) :
  bounded prec emax m e = true ->
  Z.pos m < 2 ^ 53 /\ (-1074 < e -> 2 ^ 52 <= Z.pos m) /\ -1074 <= e <= 971.
Proof.
  unfold bounded, canonical_mantissa. intros Hb.
  apply andb_true_iff in Hb as [Hc He]. apply Z.eqb_eq in Hc. apply Z.leb_le in He.
  unfold fexp, SpecFloat.emin, prec, emax in Hc, He.
  pose proof (F64Facts.digits2_gt m) as Hgt. pose proof (digits2_le m) as Hle.
  split; [|split].
  - eapply Z.lt_le_trans; [exact Hgt|]. apply Z.pow_le_mono_r; lia.
  - intros Hmin. replace (Z.pos (digits2_pos m)) with 53 in Hle by lia. exact Hle.
  - lia.
Qed.

Lemma pos_compare_cont_lt (a b : positive) :
  Pos.compare_cont Eq a b = Lt <-> Z.pos a < Z.pos b.
Proof.
  rewrite Pos.compare_cont_spec. unfold Pos.switch_Eq.
  destruct (Pos.compare_spec a b) as [H|H|H]; split; intros H'; try easy; try lia.
Qed.

Lemma exceeds_seven_tenths_sf (x : spec_float) :
  valid_binary x = true ->
  SFltb (S754_finite false 6305039478318694 (-53)) x = true <-> F64.exceeds x 7 10.
Proof.
  intros Hv. destruct x as [s|s| |s m e]; cbn [F64.exceeds].
  - unfold SFltb, SFcompare. destruct s; split; intros H; try discriminate; lia.
  - unfold SFltb, SFcompare. destruct s; split; intros H; try discriminate; reflexivity.
  - split; [discriminate | intros []].
  - apply valid_mantissa in Hv as (Hlt & Hnorm & Hmin & Hmax).
    unfold SFltb, SFcompare. destruct s.
    + split; [discriminate|]. intros H.
      destruct (Z.leb_spec 0 e) as [He|He].
      * assert (0 < 2 ^ e) by (apply Z.pow_pos_nonneg; lia). nia.
      * assert (0 < 2 ^ (- e)) by (apply Z.pow_pos_nonneg; lia). lia.
    + destruct (Z.compare_spec (-53) e) as [He|He|He].
      * subst e. change (0 <=? -53) with false. change (2 ^ (- -53)) with 9007199254740992.
        pose proof (pos_compare_cont_lt 6305039478318694 m) as Hcmp.
        destruct (Pos.compare_cont Eq 6305039478318694 m); split; intros H;
          try discriminate; try reflexivity.
        -- exfalso. assert (Z.pos m <= Z.pos 6305039478318694).
           { destruct (Z_le_gt_dec (Z.pos m) (Z.pos 6305039478318694)) as [|Hgt]; [assumption|].
             apply Z.gt_lt, Hcmp in Hgt. discriminate. }
           lia.
        -- assert (Z.pos 6305039478318694 < Z.pos m) by now apply Hcmp. lia.
        -- exfalso. assert (Z.pos m <= Z.pos 6305039478318694).
           { destruct (Z_le_gt_dec (Z.pos m) (Z.pos 6305039478318694)) as [|Hgt]; [assumption|].
             apply Z.gt_lt, Hcmp in Hgt. discriminate. }
           lia.
      * split; [intros _|reflexivity].
        specialize (Hnorm ltac:(lia)). change (2 ^ 52) with 4503599627370496 in Hnorm.
        destruct (Z.leb_spec 0 e) as [He0|He0].
        -- assert (1 <= 2 ^ e) by (apply (Z.pow_le_mono_r 2 0 e); lia). nia.
        -- assert (2 ^ (- e) <= 2 ^ 52) by (apply Z.pow_le_mono_r; lia).
           change (2 ^ 52) with 4503599627370496 in *. lia.
      * split; [discriminate|]. intros H.
        replace (0 <=? e) with false in H by (symmetry; apply Z.leb_gt; lia).
        assert (2 ^ 54 <= 2 ^ (- e)) by (apply Z.pow_le_mono_r; lia).
        change (2 ^ 54) with 18014398509481984 in *.
        change (2 ^ 53) with 9007199254740992 in *. lia.
Qed.

(** X5: The test [Confidence > 0.7] holds exactly when the confidence, taken as
    the number it is, is greater than 7/10: rounding the constant to binary64
    moves no value across the threshold.  Positive infinity passes, NaN does
    not. *)
Theorem threshold_is_seven_tenths (c : float) :
  F64.gt c F64.c0_7 = true <-> F64.exceeds (Prim2SF c) 7 10.
Proof.
  unfold F64.gt. rewrite ltb_spec.
  change (Prim2SF F64.c0_7) with (S754_finite false 6305039478318694 (-53)).
  apply exceeds_seven_tenths_sf, Prim2SF_valid.
Qed.

End Threshold.

(** ** The status line *)

Section StatusClaim.

Variable int_overflow : float -> Z.

(** C10: the card opens with the status emoji and the (bold) label the verdict
    determines: the check mark and APPEARS CREDIBLE when [is_misinformation]
    is false; otherwise the siren and LIKELY MISINFORMATION when the
    confidence, taken as the number it is, is strictly greater than 7/10, and
    the warning sign and POTENTIALLY MISLEADING when it is not (a NaN
    included). *)
Theorem C10_status_line (r : AnalyzeResponse) :
  (IsMisinformation r = false ->
     String.prefix "✅ *APPEARS CREDIBLE*" (formatResponse int_overflow r) = true) /\
  (IsMisinformation r = true -> F64.exceeds (Prim2SF (Confidence r)) 7 10 ->
     String.prefix "🚨 *LIKELY MISINFORMATION*" (formatResponse int_overflow r) = true) /\
  (IsMisinformation r = true -> ~ F64.exceeds (Prim2SF (Confidence r)) 7 10 ->
     String.prefix "⚠️ *POTENTIALLY MISLEADING*" (formatResponse int_overflow r) = true).
Proof.
  pose proof (formatResponse_prefix int_overflow r) as H.
  unfold status_emoji, F64.gt in H. rewrite ltb_spec in H.
  change (Prim2SF F64.c0_7) with (S754_finite false 6305039478318694 (-53)) in H.
  pose proof (Threshold.exceeds_seven_tenths_sf (Prim2SF (Confidence r))
                (Prim2SF_valid (Confidence r))) as Hthreshold.
  destruct (SFltb (S754_finite false 6305039478318694 (-53)) (Prim2SF (Confidence r))).
  - split; [|split]; intros Hm; [| intros _ | intros Hno].
    + rewrite Hm in H. exact H.
    + rewrite Hm in H. exact H.
    + exfalso. apply Hno, Hthreshold. reflexivity.
  - split; [|split]; intros Hm; [| intros Hyes | intros _].
    + rewrite Hm in H. exact H.
    + apply Hthreshold in Hyes. discriminate.
    + rewrite Hm in H. exact H.
Qed.

End StatusClaim.

(** ** The percentage *)

Module Percent.

(** Rounding [M0 * 2^E0 <= B] to binary64 gives a value below [B + 1/2]. *)
Lemma binary_round_aux_below (B b M0 E0 : Z) :
  0 < M0 -> 1 <= B < 2 ^ b -> 0 <= b <= 51 -> E0 <= -2 ->
  M0 <= B * 2 ^ (- E0) ->
  match binary_round_aux prec emax false M0 E0 loc_Exact with
  | S754_zero false => True
  | S754_finite false m e => e <= -2 /\ 2 * Z.pos m < (2 * B + 1) * 2 ^ (- e)
  | _ => False
  end.
Proof.
  intros HM HB Hb HE Hle.
  unfold binary_round_aux, shr_fexp.
  set (n1 := fexp prec emax (Zdigits2 M0 + E0) - E0).
  assert (Hpb : 0 < 2 ^ b) by (apply Z.pow_pos_nonneg; lia).
  assert (Hd0 : Zdigits2 M0 <= b - E0).
  { apply F64Facts.Zdigits2_le; [lia|]. split; [lia|].
    replace (b - E0) with (- E0 + b) by lia.
    rewrite F64Facts.pow2_split by lia.
    assert (0 < 2 ^ (- E0)) by (apply Z.pow_pos_nonneg; lia). nia. }
  destruct (F64Facts.shr_spec (shr_record_of_loc M0 loc_Exact) E0 n1) as [He1 Hm1];
    [rewrite F64Facts.shr_record_of_loc_m; lia|].
  rewrite F64Facts.shr_record_of_loc_m in Hm1.
  destruct (shr (shr_record_of_loc M0 loc_Exact) E0 n1) as [mrs1 e1].
  cbn [fst snd] in He1, Hm1.
  set (K1 := Z.max n1 0) in *.
  assert (HK1 : 0 <= K1) by (unfold K1; lia).
  assert (He1' : e1 <= -2).
  { subst e1. unfold K1, n1, fexp, SpecFloat.emin, prec, emax. lia. }
  assert (Hp1' : 4 <= 2 ^ (- e1)) by (apply (Z.pow_le_mono_r 2 2 (- e1)); lia).
  assert (HpK1 : 0 < 2 ^ K1) by (apply Z.pow_pos_nonneg; lia).
  assert (Hm1le : 0 <= shr_m mrs1 <= B * 2 ^ (- e1)).
  { rewrite Hm1. split.
    - apply Z_div_nonneg_nonneg; lia.
    - apply Z.div_le_upper_bound; [assumption|].
      replace (- E0) with (- e1 + K1) in Hle by lia.
      rewrite F64Facts.pow2_split in Hle by lia. lia. }
  pose proof (F64Facts.round_nearest_even_bounds (shr_m mrs1) (loc_of_shr_record mrs1)) as Hr.
  set (m2 := round_nearest_even (shr_m mrs1) (loc_of_shr_record mrs1)) in *.
  set (n2 := fexp prec emax (Zdigits2 m2 + e1) - e1).
  assert (Hd2 : Zdigits2 m2 <= b - e1).
  { apply F64Facts.Zdigits2_le; [lia|]. split; [lia|].
    replace (b - e1) with (- e1 + b) by lia.
    rewrite F64Facts.pow2_split by lia. nia. }
  destruct (F64Facts.shr_spec (shr_record_of_loc m2 loc_Exact) e1 n2) as [He3 Hm3];
    [rewrite F64Facts.shr_record_of_loc_m; lia|].
  rewrite F64Facts.shr_record_of_loc_m in Hm3.
  destruct (shr (shr_record_of_loc m2 loc_Exact) e1 n2) as [mrs3 e3].
  cbn [fst snd] in He3, Hm3.
  set (K2 := Z.max n2 0) in *.
  assert (HK2 : 0 <= K2) by (unfold K2; lia).
  assert (He3' : e3 <= -2).
  { subst e3. unfold K2, n2, fexp, SpecFloat.emin, prec, emax. lia. }
  assert (HpK2 : 0 < 2 ^ K2) by (apply Z.pow_pos_nonneg; lia).
  assert (Hp3 : 0 < 2 ^ (- e3)) by (apply Z.pow_pos_nonneg; lia).
  assert (Hs : 2 ^ (- e1) = 2 ^ (- e3) * 2 ^ K2).
  { rewrite <- F64Facts.pow2_split by lia. f_equal. lia. }
  assert (Hm3lt : 0 <= shr_m mrs3 /\ 2 * shr_m mrs3 < (2 * B + 1) * 2 ^ (- e3)).
  { rewrite Hm3. split.
    - apply Z_div_nonneg_nonneg; lia.
    - pose proof (Z.mul_div_le m2 (2 ^ K2) HpK2) as Hq.
      set (q := m2 / 2 ^ K2) in *.
      apply (Z.mul_lt_mono_pos_r (2 ^ K2)); [assumption|]. nia. }
  destruct (shr_m mrs3) as [|m3|m3]; [exact I| |lia].
  replace (e3 <=? emax - prec) with true
    by (symmetry; apply Z.leb_le; unfold emax, prec; lia).
  split; lia.
Qed.

Lemma round_half_even_below (B : Z) (m : positive) (e : Z) :
  0 <= B -> e <= -2 -> 2 * Z.pos m < (2 * B + 1) * 2 ^ (- e) ->
  0 <= F64.round_half_even m e <= B.
Proof.
  intros HB He Hm. unfold F64.round_half_even.
  replace (0 <=? e) with false by (symmetry; apply Z.leb_gt; lia).
  cbv zeta.
  assert (Hd : 0 < 2 ^ (- e)) by (apply Z.pow_pos_nonneg; lia).
  set (d := 2 ^ (- e)) in *.
  pose proof (Z.div_mod (Z.pos m) d ltac:(lia)) as Hdm.
  pose proof (Z.mod_pos_bound (Z.pos m) d Hd) as Hr.
  assert (Hq : 0 <= Z.pos m / d) by (apply Z_div_nonneg_nonneg; lia).
  set (q := Z.pos m / d) in *. set (r := Z.pos m mod d) in *.
  assert (HqB : q <= B) by nia.
  destruct (Z.compare_spec (2 * r) d) as [Hc|Hc|Hc].
  - destruct (Z.even q); [lia|]. nia.
  - lia.
  - nia.
Qed.

Lemma fmt_percent_unit_interval (c : float) :
  (0 <=? c)%float = true -> (c <=? 1)%float = true ->
  (exists n : Z, 0 <= n <= 100 /\ F64.fmt_f0 (c * 100)%float = F64.decimal n) \/
  (Prim2SF c = S754_zero true /\ F64.fmt_f0 (c * 100)%float = "-0").
Proof.
  intros H0 H1. rewrite leb_spec in H0, H1. unfold F64.fmt_f0. rewrite mul_spec.
  change (Prim2SF 0) with (S754_zero false) in H0.
  change (Prim2SF 1) with (S754_finite false 4503599627370496 (-52)) in H1.
  change (Prim2SF 100) with (S754_finite false 7036874417766400 (-46)).
  destruct (F64Facts.unit_interval_sf _ (Prim2SF_valid c) H0 H1)
    as [[s Hc]|(m & e & Hc & He & Hm)]; rewrite Hc.
  - destruct s; [right; split; reflexivity | left; exists 0; split; [lia | reflexivity]].
  - left. unfold SF64mul, SFmul. cbn [xorb].
    assert (Hp : 0 < 2 ^ (- e)) by (apply Z.pow_pos_nonneg; lia).
    assert (Hb := binary_round_aux_below 100 7 (Z.pos (m * 7036874417766400)) (e + -46)).
    assert (HM : Z.pos (m * 7036874417766400) <= 100 * 2 ^ (- (e + -46))).
    { replace (- (e + -46)) with (- e + 46) by lia.
      rewrite F64Facts.pow2_split by lia. change (2 ^ 46) with 70368744177664.
      rewrite Pos2Z.inj_mul. nia. }
    specialize (Hb (Pos2Z.is_pos _) ltac:(change (2 ^ 7) with 128; lia)
                   ltac:(lia) ltac:(lia) HM).
    destruct (binary_round_aux prec emax false (Z.pos (m * 7036874417766400)) (e + -46) loc_Exact)
      as [[|]|[|]| |[|] m' e']; try contradiction.
    + exists 0. split; [lia | reflexivity].
    + destruct Hb as [He' Hm'].
      exists (F64.round_half_even m' e'). split; [|reflexivity].
      now apply round_half_even_below.
Qed.

(** X4: For a confidence in [0, 1] the card shows a whole percentage from 0 to
    100, with no sign; only the negative zero, which also passes the test
    [0 <= confidence], is shown with its sign, as [-0]. *)
Theorem percentage_between_0_and_100 (int_overflow : float -> Z) (r : AnalyzeResponse) :
  (0 <=? Confidence r)%float = true -> (Confidence r <=? 1)%float = true ->
  exists pct before after,
    formatResponse int_overflow r =
      before +:+ "] " +:+ pct +:+ "%" +:+ Str.nl +:+ after /\
    ((exists n : Z, 0 <= n <= 100 /\ pct = F64.decimal n) \/
     (Prim2SF (Confidence r) = S754_zero true /\ pct = "-0")).
Proof.
  intros H0 H1. exists (F64.fmt_f0 (Confidence r * 100)%float).
  rewrite formatResponse_sections. unfold header.
  destruct (status_emoji r) as [emoji status].
  exists (emoji +:+ " *" +:+ status +:+ "*" +:+ Str.nl +:+ Str.nl
            +:+ "*Confidence:* [" +:+ confidence_bar int_overflow r).
  eexists. split.
  - rewrite !StrFacts.append_assoc. reflexivity.
  - now apply fmt_percent_unit_interval.
Qed.

End Percent.

(** ** The relay *)

Section RelayExtras.

Variable int_overflow : float -> Z.
Context {JID ImageMessage : Type}.
Variable JID_String : JID -> string.
Variable config : Config.

Abbreviation run_ := (run int_overflow JID_String config).
Abbreviation card_ := (formatResponse int_overflow).

#[local] Opaque formatResponse String.append Nat.ltb.

(** X6: One event costs at most one download, one backend request and one
    reply, whatever the world answers: nothing is retried. *)
Theorem at_most_one_download_request_reply (w : World JID ImageMessage)
    (evt : Event JID ImageMessage) :
  (length (downloads (run_ w evt)) <= 1)%nat /\
  (length (requests (run_ w evt)) <= 1)%nat /\
  (length (replies (run_ w evt)) <= 1)%nat.
Proof.
  destruct evt as [v| | | |]; try (cbn; lia).
  bot_unfold. bot_cases; cbn; lia.
Qed.

(** X7: Only a message sent by someone else makes the relay act on the outside:
    any download, backend request or reply comes from such a message. *)
Theorem only_messages_of_others_have_effects (w : World JID ImageMessage)
    (evt : Event JID ImageMessage) :
  downloads (run_ w evt) <> [] \/ requests (run_ w evt) <> [] \/
    replies (run_ w evt) <> [] ->
  exists v, evt = EvMessage v /\ IsFromMe (Info v) = false.
Proof.
  destruct evt as [v| | | |]; try (cbn; intros [H|[H|H]]; now destruct H).
  intros H. exists v. split; [reflexivity|].
  destruct (IsFromMe (Info v)) eqn:Hme; [|reflexivity].
  rewrite (C6_own_messages_ignored int_overflow JID_String config w v Hme) in H.
  cbn in H. destruct H as [H|[H|H]]; now destruct H.
Qed.

(** X8: An image message is handled as an image, whatever text it carries: the
    image is downloaded once, and the only request there can be is the POST
    to [/analyze/image] of a multipart form whose file [image.jpg] holds the
    downloaded bytes as they are. *)
Theorem image_is_uploaded_as_downloaded (w : World JID ImageMessage)
    (v : MessageEvent JID ImageMessage) (img : ImageMessage) :
  IsFromMe (Info v) = false -> GetImageMessage (Msg v) = Some img ->
  downloads (run_ w (EvMessage v)) = [img] /\
  forall req, In req (requests (run_ w (EvMessage v))) ->
    exists data,
      download w img = Ok data /\
      req = {| Method := "POST";
               URL := BackendURL config +:+ "/analyze/image";
               ContentType := "multipart/form-data; boundary=" +:+ boundary w;
               Body := MultipartFile "file" "image.jpg" data |}.
Proof.
  intros Hme Himg. bot_unfold. rewrite Hme, Himg. cbn.
  bot_cases; (split; [reflexivity|]); intros req Hin; cbn in Hin;
    repeat (destruct Hin as [<-|Hin]; [eauto|]); destruct Hin.
Qed.

(** X9: Which text is analysed: the conversation text when there is one, and
    otherwise the text of the extended text message; the image handler and
    the download are never involved. *)
Theorem conversation_text_comes_first (w : World JID ImageMessage)
    (v : MessageEvent JID ImageMessage) (msg : Message ImageMessage) :
  IsFromMe (Info v) = false -> Msg v = Some msg -> ImageMessage_ msg = None ->
  (forall text, Conversation msg = Some text ->
     (10 <= String.length text)%nat ->
     requests (run_ w (EvMessage v)) = [text_request config text]) /\
  (forall ext text,
     Conversation msg = None \/ Conversation msg = Some "" ->
     ExtendedTextMessage_ msg = Some ext -> ExtText ext = Some text ->
     (10 <= String.length text)%nat ->
     requests (run_ w (EvMessage v)) = [text_request config text]) /\
  downloads (run_ w (EvMessage v)) = [].
Proof.
  intros Hme Hmsg Himg.
  assert (Hnoimg : GetImageMessage (Msg v) = None) by (rewrite Hmsg; exact Himg).
  split; [|split].
  - intros text Hconv Hlen.
    assert (Htext : message_text (Msg v) = text).
    { unfold message_text, GetConversation. rewrite Hmsg. cbn. rewrite Hconv. cbn.
      destruct text; [cbn in Hlen; lia | reflexivity]. }
    rewrite <- Htext in Hlen |- *.
    exact (proj1 (text_gate_open int_overflow JID_String config w v Hme Hnoimg Hlen)).
  - intros ext text Hconv Hext Htxt Hlen.
    assert (Htext : message_text (Msg v) = text).
    { unfold message_text, GetConversation, GetExtendedTextMessage, GetText.
      rewrite Hmsg. cbn. rewrite Hext. cbn. rewrite Htxt.
      destruct Hconv as [-> | ->]; reflexivity. }
    rewrite <- Htext in Hlen |- *.
    exact (proj1 (text_gate_open int_overflow JID_String config w v Hme Hnoimg Hlen)).
  - bot_unfold. rewrite Hme, Hnoimg. cbn. bot_cases; reflexivity.
Qed.

(** X10: The way a text message is meant to go: 10 bytes or more, a 200 response
    that decodes to a verdict marked as news: the card of that verdict is
    sent as the one quoted reply, after the one request. *)
Theorem newsworthy_text_is_answered_with_the_card (w : World JID ImageMessage)
    (v : MessageEvent JID ImageMessage) (r : AnalyzeResponse) :
  IsFromMe (Info v) = false -> GetImageMessage (Msg v) = None ->
  (10 <= String.length (message_text (Msg v)))%nat ->
  backend_ok (round_trip w (text_request config (message_text (Msg v)))) r ->
  IsNews r = true ->
  replies (run_ w (EvMessage v)) = [(Chat (Info v), quoted_reply JID_String v (card_ r))] /\
  reply_texts (run_ w (EvMessage v)) = [card_ r] /\
  requests (run_ w (EvMessage v)) = [text_request config (message_text (Msg v))].
Proof.
  intros Hme Himg Hlen Hok Hnews.
  pose proof (text_answer_ok int_overflow JID_String config w v r Hme Himg Hlen Hok) as Hr.
  rewrite Hnews in Hr. split; [exact Hr|]. split.
  - exact (reply_texts_one JID_String _ _ _ _ Hr).
  - exact (proj1 (text_gate_open int_overflow JID_String config w v Hme Himg Hlen)).
Qed.

(** X11: A send that fails changes nothing but the log: the handler does what it
    does when the send succeeds, then writes one line with the error; it
    does not send again. *)
Theorem failed_send_only_adds_a_log_line (w : World JID ImageMessage)
    (evt : Event JID ImageMessage) (err : error) :
  run_ (with_send w (fun _ _ => Some err)) evt =
    run_ (with_send w (fun _ _ => None)) evt ++
    match replies (run_ (with_send w (fun _ _ => None)) evt) with
    | [] => []
    | _ => [Print ("Error sending message: " +:+ err +:+ Str.nl)]
    end.
Proof.
  destruct evt as [v| | | |]; try reflexivity.
  bot_unfold. unfold with_send. cbn. bot_cases; reflexivity.
Qed.

End RelayExtras.

Section RelaySafety.

Variable int_overflow : float -> Z.
Context {JID ImageMessage : Type}.
Variable JID_String : JID -> string.
Variable config : Config.

Abbreviation run__ := (run int_overflow JID_String config).

#[local] Opaque formatResponse String.append Nat.ltb.

(** X12: The relay never sends a text of its own making: a reply is one of the
    three error strings, or the card of a verdict that the backend returned,
    with status 200, to a request of this very event. *)
Theorem reply_is_an_error_or_a_returned_verdict (w : World JID ImageMessage)
    (evt : Event JID ImageMessage) (text : string) :
  In text (reply_texts (run__ w evt)) ->
  text = err_connect \/ text = err_download \/ text = err_analyze_image \/
  exists req resp r,
    In req (requests (run__ w evt)) /\ round_trip w req = Ok resp /\
    StatusCode resp = 200 /\ Decode resp = Ok r /\
    text = formatResponse int_overflow r.
Proof.
  destruct evt as [v| | | |]; try (intros []).
  bot_unfold. bot_cases; intros Hin; cbn in Hin;
    repeat (destruct Hin as [<-|Hin]; [|]); try (now destruct Hin); auto;
    right; right; right;
    repeat match goal with
           | H : (_ =? _) = true |- _ => apply Z.eqb_eq in H
           end;
    eexists; eexists; eexists; (split; [left; reflexivity|]); eauto.
Qed.

(** X13: A failed backend call on the text path is written to standard output
    with its cause before the reply goes out: the transport error, the status
    code, or the decoding error.  A status other than 200 is reported as such
    whatever the body holds: the body is not decoded. *)
Theorem text_failures_are_logged_with_their_cause (w : World JID ImageMessage)
    (v : MessageEvent JID ImageMessage) :
  IsFromMe (Info v) = false -> GetImageMessage (Msg v) = None ->
  (10 <= String.length (message_text (Msg v)))%nat ->
  (forall err,
     round_trip w (text_request config (message_text (Msg v))) = Err err ->
     In ("Error analyzing message: failed to call backend: " +:+ err +:+ Str.nl)
        (printed (run__ w (EvMessage v)))) /\
  (forall resp,
     round_trip w (text_request config (message_text (Msg v))) = Ok resp ->
     StatusCode resp <> 200 ->
     In ("Error analyzing message: backend returned status "
           +:+ F64.itoa (StatusCode resp) +:+ Str.nl)
        (printed (run__ w (EvMessage v)))) /\
  (forall resp err,
     round_trip w (text_request config (message_text (Msg v))) = Ok resp ->
     StatusCode resp = 200 -> Decode resp = Err err ->
     In ("Error analyzing message: failed to decode response: " +:+ err +:+ Str.nl)
        (printed (run__ w (EvMessage v)))).
Proof.
  intros Hme Himg Hlen. apply Nat.ltb_ge in Hlen.
  split; [|split].
  - intros err Hrt. unfold text_request in Hrt.
    bot_unfold. rewrite Hme, Himg. cbn. rewrite Hlen. cbn. rewrite Hrt. cbn.
    rewrite <- !StrFacts.append_assoc.
    bot_cases; cbn; auto.
  - intros resp Hrt Hs. unfold text_request in Hrt. apply Z.eqb_neq in Hs.
    bot_unfold. rewrite Hme, Himg. cbn. rewrite Hlen. cbn. rewrite Hrt. cbn.
    rewrite Hs. cbn. rewrite <- !StrFacts.append_assoc.
    bot_cases; cbn; auto.
  - intros resp err Hrt Hs Hd. unfold text_request in Hrt. apply Z.eqb_eq in Hs.
    bot_unfold. rewrite Hme, Himg. cbn. rewrite Hlen. cbn. rewrite Hrt. cbn.
    rewrite Hs, Hd. cbn. rewrite <- !StrFacts.append_assoc.
    bot_cases; cbn; auto.
Qed.

End RelaySafety.

(** ** The environment *)

(** X14: [getEnv] never returns the empty string when its default is not empty:
    a variable that is missing, or present and empty, gives the default. *)
Theorem getEnv_is_not_empty (env : gmap string string) (key defaultValue : string) :
  defaultValue <> "" ->
  getEnv env key defaultValue <> "" /\
  (getEnv env key defaultValue = defaultValue \/
   env !! key = Some (getEnv env key defaultValue)).
Proof.
  intros Hd. rewrite getEnv_spec. destruct (env !! key) as [[|a value]|]; auto.
Qed.

(** ** Startup *)

Section StartupFacts.

Context {JID : Type}.

#[local] Opaque String.append.

Ltac proc_unfold :=
  unfold main, main_proc, connect_or_exit, sqlstore_New, container_GetFirstDevice,
    client_GetQRChannel, client_Connect, await_signal, os_Exit, wait_forever, step,
    mbind, mret, Proc_bind, Proc_ret.

Lemma qr_loop_trace (items : list QRChannelItem) (w : StartupWorld JID) :
  qr_loop items w = (qr_action <$> items, inl tt).
Proof.
  induction items as [|evt rest IH]; [reflexivity|].
  cbn [qr_loop fmap list_fmap]. unfold mbind, Proc_bind. unfold qr_action, step.
  destruct (String.eqb (QREvent evt) "code"); rewrite IH; reflexivity.
Qed.

Lemma qr_codes_of_loop (items : list QRChannelItem) :
  qr_codes (qr_action <$> items) =
    QRCode <$> filter (fun evt => QREvent evt = "code") items.
Proof.
  induction items as [|evt rest IH]; [reflexivity|].
  cbn [fmap list_fmap]. rewrite filter_cons. unfold qr_codes in *.
  unfold qr_action at 1.
  destruct (String.eqb_spec (QREvent evt) "code") as [He|He].
  - rewrite decide_True by exact He. cbn. now rewrite IH.
  - rewrite decide_False by exact He. cbn. exact IH.
Qed.

Lemma qr_action_inert (items : list QRChannelItem) (a : StartupAction) :
  In a (qr_action <$> items) -> (exists code, a = GenerateQR code) \/ exists line, a = Println line.
Proof.
  induction items as [|evt rest IH]; [intros []|].
  cbn [fmap list_fmap]. intros [<-|Hin]; [|auto].
  unfold qr_action. destruct (String.eqb (QREvent evt) "code"); eauto.
Qed.

(** X15: Every exit of [main] is with status 1, after a line that names the
    failure, and only for one of three reasons: the session store cannot be
    opened, the device cannot be read, or the connection fails.  In none of
    these runs is the client disconnected. *)
Theorem startup_exits_only_with_status_1 (w : StartupWorld JID) (code : Z) :
  snd (main w) = Exited code ->
  code = 1 /\
  ~ In Disconnect (fst (main w)) /\
  ((exists err, store_error w = Some err /\
      last (fst (main w)) = Some (Println ("Failed to create database: " +:+ err +:+ Str.nl))) \/
   (exists err, first_device w = Err err /\
      last (fst (main w)) = Some (Println ("Failed to get device: " +:+ err +:+ Str.nl))) \/
   (exists err, connect_error w = Some err /\
      last (fst (main w)) = Some (Println ("Failed to connect: " +:+ err +:+ Str.nl)))).
Proof.
  proc_unfold.
  destruct (store_error w) as [e1|] eqn:Hs; cbn.
  { intros [= <-]. split; [reflexivity|]. split; [intros H; cbn in H; intuition discriminate|].
    left. eauto. }
  destruct (first_device w) as [d|e2] eqn:Hd; cbn.
  2:{ intros [= <-]. split; [reflexivity|]. split; [intros H; cbn in H; intuition discriminate|].
      right. left. eauto. }
  destruct (DeviceID d); cbn.
  - destruct (connect_error w) as [e3|] eqn:Hc; cbn.
    + intros [= <-]. split; [reflexivity|]. split; [intros H; cbn in H; intuition discriminate|].
      right. right. eauto.
    + destruct (signal_arrives w); cbn; discriminate.
  - destruct (qr_channel w) as [items|]; cbn.
    + destruct (connect_error w) as [e3|] eqn:Hc; cbn.
      * intros [= <-]. split; [reflexivity|]. split; [intros H; cbn in H; intuition discriminate|].
        right. right. eauto.
      * rewrite qr_loop_trace. cbn. destruct (signal_arrives w); cbn; discriminate.
    + destruct (connect_error w) as [e3|] eqn:Hc; cbn.
      * intros [= <-]. split; [reflexivity|]. split; [intros H; cbn in H; intuition discriminate|].
        right. right. eauto.
      * discriminate.
Qed.

Lemma split_unique {A : Type} (x : A) (l1 l2 : list A) : forall pre post : list A,
  ~ In x l1 -> ~ In x l2 -> l1 ++ x :: l2 = pre ++ x :: post -> pre = l1 /\ post = l2.
Proof.
  induction l1 as [|a l1 IH]; intros pre post H1 H2 Heq.
  - destruct pre as [|b pre]; cbn in Heq.
    + injection Heq as <-. auto.
    + injection Heq as <- ->. exfalso. apply H2. apply in_or_app. right. now left.
  - destruct pre as [|b pre]; cbn in Heq.
    + injection Heq as -> _. exfalso. apply H1. now left.
    + injection Heq as <- Heq.
      destruct (IH pre post) as [-> ->]; auto.
      intros Hin. apply H1. now right.
Qed.

Lemma not_in_qr_actions (items : list QRChannelItem) (a : StartupAction) :
  (forall code, a <> GenerateQR code) -> (forall line, a <> Println line) ->
  ~ In a (qr_action <$> items).
Proof.
  intros Hq Hp Hin. destruct (qr_action_inert items a Hin) as [[code ->]|[line ->]].
  - now apply (Hq code).
  - now apply (Hp line).
Qed.

(** X16: The event handler is registered before the client connects, so no event
    of the connection is missed; the client connects at most once; and for a
    device that is not paired yet the QR channel is asked for before
    connecting. *)
Theorem handler_is_registered_before_connecting (w : StartupWorld JID)
    (pre post : list StartupAction) :
  fst (main w) = pre ++ Connect :: post ->
  In AddEventHandler pre /\ ~ In Connect post /\
  (forall d, first_device w = Ok d -> DeviceID d = None -> In GetQRChannel pre).
Proof.
  assert (Hnone : forall t : list StartupAction,
            ~ In Connect t -> t = pre ++ Connect :: post -> False).
  { intros t Hn ->. apply Hn, in_or_app. right. now left. }
  assert (Hq : forall items, ~ In Connect (qr_action <$> items)).
  { intros items. apply not_in_qr_actions; discriminate. }
  proc_unfold.
  destruct (store_error w) as [e1|]; cbn.
  { intros Heq. exfalso. revert Heq. apply Hnone. cbn. intuition discriminate. }
  destruct (first_device w) as [d|e2]; cbn.
  2:{ intros Heq. exfalso. revert Heq. apply Hnone. cbn. intuition discriminate. }
  destruct (DeviceID d) as [j|] eqn:Hid; cbn.
  - set (l1 := banner ++ [GetFirstDevice; NewClient; AddEventHandler]).
    destruct (connect_error w); cbn; [|destruct (signal_arrives w); cbn];
      intros Heq;
      (apply (split_unique Connect l1) in Heq;
       [destruct Heq as [-> ->]; split; [cbn; tauto|];
        split; [cbn; intuition discriminate | intros d' [= <-]; congruence]
       | cbn; intuition discriminate | cbn; intuition discriminate]).
  - set (l1 := banner ++ [GetFirstDevice; NewClient; AddEventHandler; GetQRChannel]).
    destruct (qr_channel w) as [items|]; cbn;
      (destruct (connect_error w); cbn;
       [|rewrite ?qr_loop_trace; cbn; try (destruct (signal_arrives w); cbn)]);
      intros Heq;
      (apply (split_unique Connect l1) in Heq;
       [destruct Heq as [-> ->]; split; [cbn; tauto|];
        split; [| intros _ _ _; cbn; tauto]
       | cbn; intuition discriminate | ]);
      try (cbn; intuition discriminate);
      try (cbn; rewrite ?in_app_iff; cbn; specialize (Hq items); intuition discriminate).
Qed.

(** X17: [main] returns only through the shutdown: the client is disconnected
    exactly in the runs that return, as their last action, after a signal
    arrived on a connection that was made. *)
Theorem disconnects_exactly_when_it_returns (w : StartupWorld JID) :
  (In Disconnect (fst (main w)) <-> snd (main w) = Returned) /\
  (snd (main w) = Returned ->
     last (fst (main w)) = Some Disconnect /\ In Connect (fst (main w)) /\
     store_error w = None /\ connect_error w = None /\ signal_arrives w = true).
Proof.
  assert (Hq : forall items, ~ In Disconnect (qr_action <$> items)).
  { intros items. apply not_in_qr_actions; discriminate. }
  proc_unfold.
  destruct (store_error w) as [e1|]; cbn.
  { intuition discriminate. }
  destruct (first_device w) as [d|e2]; cbn.
  2:{ intuition discriminate. }
  destruct (DeviceID d) as [j|]; cbn.
  - destruct (connect_error w); cbn; [intuition discriminate|].
    destruct (signal_arrives w); cbn; intuition discriminate.
  - destruct (qr_channel w) as [items|]; cbn;
      (destruct (connect_error w); cbn; [intuition discriminate|]).
    + rewrite qr_loop_trace. cbn. specialize (Hq items).
      destruct (signal_arrives w); cbn; rewrite ?in_app_iff; cbn.
      * split; [tauto|]. intros _. split; [|tauto].
        rewrite !last_cons, last_app. reflexivity.
      * split; [|discriminate]. split; [|discriminate]. intuition discriminate.
    + intuition discriminate.
Qed.

(** X18: For a device that is not paired, the QR codes drawn on the terminal are
    the codes of the channel's [code] items, in their order, and every other
    item is only logged; for a paired device the QR channel is not even asked
    for, and nothing is drawn. *)
Theorem qr_codes_are_those_of_the_channel (w : StartupWorld JID) (d : Device JID) :
  store_error w = None -> first_device w = Ok d -> connect_error w = None ->
  (forall items, DeviceID d = None -> qr_channel w = Some items ->
     qr_codes (fst (main w)) =
       QRCode <$> filter (fun evt => QREvent evt = "code") items) /\
  (forall jid, DeviceID d = Some jid ->
     qr_codes (fst (main w)) = [] /\ ~ In GetQRChannel (fst (main w))).
Proof.
  intros Hs Hd Hc. split.
  - intros items Hid Hqr. proc_unfold. rewrite Hs. cbn. rewrite Hd. cbn. rewrite Hid. cbn.
    rewrite Hqr. cbn. rewrite Hc. cbn. rewrite qr_loop_trace. cbn.
    destruct (signal_arrives w); cbn; unfold qr_codes; cbn;
      rewrite omap_app; fold (qr_codes (qr_action <$> items));
      rewrite qr_codes_of_loop; cbn; now rewrite app_nil_r.
  - intros jid Hid. proc_unfold. rewrite Hs. cbn. rewrite Hd. cbn. rewrite Hid. cbn.
    rewrite Hc. cbn.
    destruct (signal_arrives w); cbn; (split; [reflexivity | intuition discriminate]).
Qed.

End StartupFacts.

(** ** The two backend calls, as functions *)

Section BackendCalls.

Context {JID ImageMessage : Type}.
Variable config : Config.

#[local] Opaque String.append.

(** X19: when the configured URL is one [net/http] accepts, [analyzeText]
    makes exactly one request, the POST of the text as JSON to
    [/analyze/text], and returns the verdict exactly when the answer has
    status 200 and a body that decodes; any other answer gives an error and no
    verdict. *)
Theorem analyzeText_contract (text : string) (w : World JID ImageMessage) :
  url_error w (BackendURL config +:+ "/analyze/text") = None ->
  snd (analyzeText JID ImageMessage config text w) = [HttpDo (text_request config text)] /\
  (forall r, fst (analyzeText JID ImageMessage config text w) = Ok r <->
             backend_ok (round_trip w (text_request config text)) r) /\
  ((exists err, fst (analyzeText JID ImageMessage config text w) = Err err) <->
   backend_failed (round_trip w (text_request config text))).
Proof.
  intros _.
  unfold analyzeText, http_Post, http_Do, mbind, mret, Bot_bind, Bot_ret,
    backend_ok, backend_failed, text_request.
  destruct (round_trip w _) as [resp|err]; cbn.
  - destruct (Z.eqb_spec (StatusCode resp) 200) as [Hs|Hs]; cbn.
    + destruct (Decode resp) as [r'|err] eqn:Hd; cbn.
      * split; [reflexivity|]. split.
        -- intros r. split.
           ++ intros [= <-]. eauto.
           ++ intros (resp' & [= <-] & _ & Hd'). congruence.
        -- split.
           ++ intros [err [=]].
           ++ intros [[err [=]]|(resp' & [= <-] & [Hne|[err Hd']])]; congruence.
      * split; [reflexivity|]. split.
        -- intros r. split; [discriminate|].
           intros (resp' & [= <-] & _ & Hd'). congruence.
        -- split; [|eauto]. intros _. right. eauto 6.
    + split; [reflexivity|]. split.
      * intros r. split; [discriminate|]. intros (resp' & [= <-] & Hs' & _). congruence.
      * split; [|eauto]. intros _. right. eauto 6.
  - split; [reflexivity|]. split.
    + intros r. split; [discriminate|]. intros (resp' & [=] & _).
    + split; [|eauto]. intros _. left. eauto.
Qed.

(** X20: [analyzeImage] makes at most one request.  When the request
    cannot be built for the configured URL it makes none and returns an
    error; otherwise it makes the multipart POST to [/analyze/image] and
    returns the verdict exactly when the answer has status 200 and a body that
    decodes. *)
Theorem analyzeImage_contract (imageData : list Byte.byte) (w : World JID ImageMessage) :
  (forall err, url_error w (BackendURL config +:+ "/analyze/image") = Some err ->
     analyzeImage JID ImageMessage config imageData w =
       (Err ("failed to create request: " +:+ err), [])) /\
  (url_error w (BackendURL config +:+ "/analyze/image") = None ->
     snd (analyzeImage JID ImageMessage config imageData w) =
       [HttpDo (image_request config (boundary w) imageData)] /\
     (forall r, fst (analyzeImage JID ImageMessage config imageData w) = Ok r <->
                backend_ok (round_trip w (image_request config (boundary w) imageData)) r) /\
     ((exists err, fst (analyzeImage JID ImageMessage config imageData w) = Err err) <->
      backend_failed (round_trip w (image_request config (boundary w) imageData)))).
Proof.
  unfold analyzeImage, http_NewRequest, FormDataContentType, http_Do, set_content_type,
    mbind, mret, Bot_bind, Bot_ret, backend_ok, backend_failed, image_request.
  split.
  - intros err ->. reflexivity.
  - intros ->. cbn.
    destruct (round_trip w _) as [resp|err]; cbn.
    + destruct (Z.eqb_spec (StatusCode resp) 200) as [Hs|Hs]; cbn.
      * destruct (Decode resp) as [r'|err] eqn:Hd; cbn.
        -- split; [reflexivity|]. split.
           ++ intros r. split.
              ** intros [= <-]. eauto.
              ** intros (resp' & [= <-] & _ & Hd'). congruence.
           ++ split.
              ** intros [err [=]].
              ** intros [[err [=]]|(resp' & [= <-] & [Hne|[err Hd']])]; congruence.
        -- split; [reflexivity|]. split.
           ++ intros r. split; [discriminate|].
              intros (resp' & [= <-] & _ & Hd'). congruence.
           ++ split; [|eauto]. intros _. right. eauto 6.
      * split; [reflexivity|]. split.
        -- intros r. split; [discriminate|]. intros (resp' & [= <-] & Hs' & _). congruence.
        -- split; [|eauto]. intros _. right. eauto 6.
    + split; [reflexivity|]. split.
      * intros r. split; [discriminate|]. intros (resp' & [=] & _).
      * split; [|eauto]. intros _. left. eauto.
Qed.

End BackendCalls.

(** ** Concrete runs of the further properties *)

Lemma card_depends_on_shown_fields_only_witness :
  formatResponse Demo.overflow (Demo.verdict true) =
  formatResponse Demo.overflow (Demo.verdict false).
Proof.
  apply (card_depends_on_shown_fields_only Demo.overflow
           (Demo.verdict true) (Demo.verdict false)); reflexivity.
Defined.

Lemma card_omits_empty_sections_witness :
  formatResponse Demo.overflow Demo.bare_verdict =
  header Demo.overflow Demo.bare_verdict +:+ footer.
Proof.
  apply (card_omits_empty_sections Demo.overflow Demo.bare_verdict); reflexivity.
Defined.

Lemma percentage_between_0_and_100_witness :
  exists pct before after,
    formatResponse Demo.overflow (Demo.verdict true) =
      before +:+ "] " +:+ pct +:+ "%" +:+ Str.nl +:+ after /\
    ((exists n : Z, 0 <= n <= 100 /\ pct = F64.decimal n) \/
     (Prim2SF (Confidence (Demo.verdict true)) = S754_zero true /\ pct = "-0")).
Proof.
  apply (Percent.percentage_between_0_and_100 Demo.overflow (Demo.verdict true));
    reflexivity.
Defined.

Lemma only_messages_of_others_have_effects_witness :
  exists v,
    EvMessage (Demo.text_message false Demo.headline) = EvMessage v /\
    IsFromMe (Info v) = false.
Proof.
  apply (only_messages_of_others_have_effects Demo.overflow Demo.jid_string Demo.config
           (Demo.world (Demo.answer_ok true))).
  right. left. discriminate.
Defined.

Lemma image_is_uploaded_as_downloaded_witness :
  downloads (run Demo.overflow Demo.jid_string Demo.config
               (Demo.world (Demo.answer_ok true))
               (EvMessage (Demo.image_message Demo.headline [Byte.x78; Byte.x79])))
    = [[Byte.x78; Byte.x79]] /\
  forall req,
    In req (requests (run Demo.overflow Demo.jid_string Demo.config
                        (Demo.world (Demo.answer_ok true))
                        (EvMessage (Demo.image_message Demo.headline [Byte.x78; Byte.x79])))) ->
    exists data,
      download (Demo.world (Demo.answer_ok true)) [Byte.x78; Byte.x79] = Ok data /\
      req = {| Method := "POST";
               URL := BackendURL Demo.config +:+ "/analyze/image";
               ContentType := "multipart/form-data; boundary="
                                +:+ boundary (Demo.world (Demo.answer_ok true));
               Body := MultipartFile "file" "image.jpg" data |}.
Proof.
  apply (image_is_uploaded_as_downloaded Demo.overflow Demo.jid_string Demo.config
           (Demo.world (Demo.answer_ok true))
           (Demo.image_message Demo.headline [Byte.x78; Byte.x79]));
    reflexivity.
Defined.

Lemma conversation_text_comes_first_witness :
  requests (run Demo.overflow Demo.jid_string Demo.config
              (Demo.world (Demo.answer_ok true))
              (EvMessage (Demo.link_message Demo.headline)))
    = [text_request Demo.config Demo.headline].
Proof.
  refine (proj1 (proj2 (conversation_text_comes_first Demo.overflow Demo.jid_string
                   Demo.config (Demo.world (Demo.answer_ok true))
                   (Demo.link_message Demo.headline) _ eq_refl eq_refl eq_refl))
            _ Demo.headline (or_introl eq_refl) eq_refl eq_refl _).
  vm_compute. lia.
Defined.

Lemma newsworthy_text_is_answered_with_the_card_witness :
  replies (run Demo.overflow Demo.jid_string Demo.config
             (Demo.world (Demo.answer_ok true))
             (EvMessage (Demo.text_message false Demo.headline)))
    = [("family@g.us",
        quoted_reply Demo.jid_string (Demo.text_message false Demo.headline)
          (formatResponse Demo.overflow (Demo.verdict true)))] /\
  reply_texts (run Demo.overflow Demo.jid_string Demo.config
                 (Demo.world (Demo.answer_ok true))
                 (EvMessage (Demo.text_message false Demo.headline)))
    = [formatResponse Demo.overflow (Demo.verdict true)] /\
  requests (run Demo.overflow Demo.jid_string Demo.config
              (Demo.world (Demo.answer_ok true))
              (EvMessage (Demo.text_message false Demo.headline)))
    = [text_request Demo.config Demo.headline].
Proof.
  apply (newsworthy_text_is_answered_with_the_card Demo.overflow Demo.jid_string
           Demo.config (Demo.world (Demo.answer_ok true))
           (Demo.text_message false Demo.headline) (Demo.verdict true));
    try reflexivity.
  - vm_compute. lia.
  - exists {| StatusCode := 200; Decode := Ok (Demo.verdict true) |}.
    repeat split.
Defined.

Lemma reply_is_an_error_or_a_returned_verdict_witness :
  formatResponse Demo.overflow (Demo.verdict true) = err_connect \/
  formatResponse Demo.overflow (Demo.verdict true) = err_download \/
  formatResponse Demo.overflow (Demo.verdict true) = err_analyze_image \/
  exists req resp r,
    In req (requests (run Demo.overflow Demo.jid_string Demo.config
                        (Demo.world (Demo.answer_ok true))
                        (EvMessage (Demo.text_message false Demo.headline)))) /\
    round_trip (Demo.world (Demo.answer_ok true)) req = Ok resp /\
    StatusCode resp = 200 /\ Decode resp = Ok r /\
    formatResponse Demo.overflow (Demo.verdict true) = formatResponse Demo.overflow r.
Proof.
  apply (reply_is_an_error_or_a_returned_verdict Demo.overflow Demo.jid_string
           Demo.config (Demo.world (Demo.answer_ok true))
           (EvMessage (Demo.text_message false Demo.headline))).
  left. reflexivity.
Defined.

Lemma text_failures_are_logged_with_their_cause_witness :
  In ("Error analyzing message: backend returned status " +:+ F64.itoa 500 +:+ Str.nl)
     (printed (run Demo.overflow Demo.jid_string Demo.config (Demo.world Demo.answer_500)
                 (EvMessage (Demo.text_message false Demo.headline)))).
Proof.
  refine (proj1 (proj2 (text_failures_are_logged_with_their_cause Demo.overflow
                   Demo.jid_string Demo.config (Demo.world Demo.answer_500)
                   (Demo.text_message false Demo.headline) eq_refl eq_refl _))
            {| StatusCode := 500; Decode := Err "unexpected end of JSON input" |}
            eq_refl _).
  - vm_compute. lia.
  - discriminate.
Defined.

Lemma getEnv_is_not_empty_witness :
  getEnv {[ "BACKEND_URL" := "" ]} "BACKEND_URL" "http://localhost:8000" <> "" /\
  (getEnv {[ "BACKEND_URL" := "" ]} "BACKEND_URL" "http://localhost:8000"
     = "http://localhost:8000" \/
   ({[ "BACKEND_URL" := "" ]} : gmap string string) !! "BACKEND_URL"
     = Some (getEnv {[ "BACKEND_URL" := "" ]} "BACKEND_URL" "http://localhost:8000")).
Proof.
  apply (getEnv_is_not_empty {[ "BACKEND_URL" := "" ]} "BACKEND_URL" "http://localhost:8000").
  discriminate.
Defined.

Lemma startup_exits_only_with_status_1_witness :
  1 = 1 /\
  ~ In Disconnect (fst (main Demo.broken_store)) /\
  ((exists err, store_error Demo.broken_store = Some err /\
      last (fst (main Demo.broken_store))
        = Some (Println ("Failed to create database: " +:+ err +:+ Str.nl))) \/
   (exists err, first_device Demo.broken_store = Err err /\
      last (fst (main Demo.broken_store))
        = Some (Println ("Failed to get device: " +:+ err +:+ Str.nl))) \/
   (exists err, connect_error Demo.broken_store = Some err /\
      last (fst (main Demo.broken_store))
        = Some (Println ("Failed to connect: " +:+ err +:+ Str.nl)))).
Proof.
  apply (startup_exits_only_with_status_1 Demo.broken_store 1). reflexivity.
Defined.

Lemma handler_is_registered_before_connecting_witness :
  In AddEventHandler (banner ++ [GetFirstDevice; NewClient; AddEventHandler; GetQRChannel]) /\
  ~ In Connect (drop 8 (fst (main Demo.first_start))) /\
  (forall d, first_device Demo.first_start = Ok d -> DeviceID d = None ->
     In GetQRChannel (banner ++ [GetFirstDevice; NewClient; AddEventHandler; GetQRChannel])).
Proof.
  apply (handler_is_registered_before_connecting Demo.first_start). reflexivity.
Defined.

Lemma qr_codes_are_those_of_the_channel_witness :
  (forall items, DeviceID {| DeviceID := @None string |} = None ->
     qr_channel Demo.first_start = Some items ->
     qr_codes (fst (main Demo.first_start)) =
       QRCode <$> filter (fun evt => QREvent evt = "code") items) /\
  (forall jid, DeviceID {| DeviceID := @None string |} = Some jid ->
     qr_codes (fst (main Demo.first_start)) = [] /\
     ~ In GetQRChannel (fst (main Demo.first_start))).
Proof.
  apply (qr_codes_are_those_of_the_channel Demo.first_start {| DeviceID := None |});
    reflexivity.
Defined.

Lemma analyzeText_contract_witness :
  snd (analyzeText string (list Byte.byte) Demo.config Demo.headline
         (Demo.world (Demo.answer_ok true)))
    = [HttpDo (text_request Demo.config Demo.headline)] /\
  (forall r,
     fst (analyzeText string (list Byte.byte) Demo.config Demo.headline
            (Demo.world (Demo.answer_ok true))) = Ok r <->
     backend_ok (round_trip (Demo.world (Demo.answer_ok true))
                   (text_request Demo.config Demo.headline)) r) /\
  ((exists err,
      fst (analyzeText string (list Byte.byte) Demo.config Demo.headline
             (Demo.world (Demo.answer_ok true))) = Err err) <->
   backend_failed (round_trip (Demo.world (Demo.answer_ok true))
                     (text_request Demo.config Demo.headline))).
Proof.
  apply (analyzeText_contract Demo.config Demo.headline (Demo.world (Demo.answer_ok true))).
  reflexivity.
Defined.
